(** * Extruder kinematics of klippy: [klippy/kinematics/extruder.py]

    A shallow embedding of the classes [PrinterExtruder] and
    [DummyExtruder], and the properties of the move limiter, the junction
    calculator, the pressure-advance controller and the move projector.

    Numbers.  The Python code computes with [float].  Here every float is
    an exact rational ([Q]): comparisons, signs and the branch structure
    are those of the code, and rounding and overflow are left out.  What
    Python does differently from a field is written out: a division
    whose divisor is zero raises [ZeroDivisionError], and a number used
    as a condition is true when it is not zero.

    Effects.  A method runs in the monad [M]: it reads and updates the
    fields of [self], appends to a trace the calls it makes on its
    collaborators (toolhead, stepper, solver, move, logger), and returns
    a value or raises.  A raise keeps the updates and calls made before
    it, as in Python. *)

From Stdlib Require Import QArith Qabs Lia Lqa.
From stdpp Require Import base option list strings pretty gmap.

Local Open Scope Q_scope.

(** ** Python numbers *)

Inductive endstop_error : Type :=
  | ExtrudeBelowMinTemp
      (* "Extrude below minimum temp ..." *)
  | ExtrudeOnlyTooLong (dist max_dist : Q)
      (* "Extrude only move too long (%.3fmm vs %.3fmm) ..." *)
  | ExceedsMaxExtrusion (area max_area : Q)
      (* "Move exceeds maximum extrusion (%.3fmm^2 vs %.3fmm^2) ..." *).

Record Vec4 : Type := mkVec4 { ix0 : Q; ix1 : Q; ix2 : Q; ix3 : Q }.

Inductive exn : Type :=
  | ZeroDivisionError
  | EndstopError (e : endstop_error)
  | EndstopMoveError (pos : Vec4) (msg : string)
  | ConfigError (option_name : string).

(** The outcome of an expression: [inl] is a raised exception. *)
Definition result (A : Type) : Type := (exn + A)%type.

Module Py.

(** [bool(x)] of a float. *)
Definition truthy (x : Q) : bool := negb (Qeq_bool x 0).

(** [x < y], [x > y], [x <= y], [x >= y]. *)
Definition ltb (x y : Q) : bool := negb (Qle_bool y x).
Definition gtb (x y : Q) : bool := ltb y x.
Definition leb (x y : Q) : bool := Qle_bool x y.
Definition geb (x y : Q) : bool := Qle_bool y x.

(** [x / y]. *)
Definition div (x y : Q) : result Q :=
  if Qeq_bool y 0 then inl ZeroDivisionError else inr (x / y).

End Py.

(** ** Collaborators *)

(** The fields of a toolhead [Move] that this module reads.  [axes_d],
    [start_pos] and [end_pos] are the four-element lists the toolhead
    builds (X, Y, Z, E); the code indexes them with the constants 0, 1
    and 3 only. *)
Record Move : Type := mkMove {
  axes_d : Vec4;
  move_d : Q;
  is_kinematic_move : bool;
  start_pos : Vec4;
  end_pos : Vec4;
  accel : Q;
  start_v : Q;
  cruise_v : Q;
  accel_t : Q;
  cruise_t : Q;
  decel_t : Q;
  max_cruise_v2 : Q
}.

(** The heater: the [can_extrude] attribute and [get_status(eventtime)]. *)
Record Heater : Type := mkHeater {
  can_extrude : bool;
  heater_get_status : Q -> gmap string Q
}.

(** A call made on a collaborator. *)
Inductive event : Type :=
  | NoteFlushDelay (new_delay old_delay : Q)
      (* toolhead.note_flush_delay(new_delay, old_delay=...) *)
  | ExtruderSetPressure (pressure_advance smooth_time : Q)
      (* extruder_set_pressure(sk_extruder, ...) *)
  | MotorEnable (print_time : Q) (enable : bool)
      (* stepper.motor_enable(print_time, 1 or 0) *)
  | ExtruderMoveFill (print_time accel_t cruise_t decel_t
                      start_pos pa_pos start_v cruise_v accel : Q)
                     (is_pa_move : bool)
      (* extruder_move_fill(sk_extruder, ...) *)
  | LimitSpeed (speed accel : Q)
      (* move.limit_speed(speed, accel) *)
  | LogOverextrude (extrude_r max_extrude_ratio area move_d : Q)
      (* logging.debug("Overextrude: ...") *)
  | SetMaxJerk (max_halt_velocity max_accel : Q)
      (* stepper.set_max_jerk(...) *)
  | LogMaxExtrudeRatio (max_extrude_ratio : Q)
      (* logging.info("Extruder max_extrude_ratio=%.6f", ...) *).

(** ** The extruder object *)

Record PrinterExtruder : Type := mkPrinterExtruder {
  heater : Heater;
  nozzle_diameter : Q;
  filament_area : Q;
  max_extrude_ratio : Q;
  max_e_velocity : Q;
  max_e_accel : Q;
  max_e_dist : Q;
  instant_corner_v : Q;
  pressure_advance : Q;
  pressure_advance_smooth_time : Q;
  need_motor_enable : bool;
  extrude_pos : Q;
  extrude_pa_pos : Q
}.

Definition set_pressure_advance_field (v : Q) (s : PrinterExtruder) :=
  mkPrinterExtruder (heater s) (nozzle_diameter s) (filament_area s)
    (max_extrude_ratio s) (max_e_velocity s) (max_e_accel s) (max_e_dist s)
    (instant_corner_v s) v (pressure_advance_smooth_time s)
    (need_motor_enable s) (extrude_pos s) (extrude_pa_pos s).

Definition set_pressure_advance_smooth_time (v : Q) (s : PrinterExtruder) :=
  mkPrinterExtruder (heater s) (nozzle_diameter s) (filament_area s)
    (max_extrude_ratio s) (max_e_velocity s) (max_e_accel s) (max_e_dist s)
    (instant_corner_v s) (pressure_advance s) v
    (need_motor_enable s) (extrude_pos s) (extrude_pa_pos s).

Definition set_need_motor_enable (v : bool) (s : PrinterExtruder) :=
  mkPrinterExtruder (heater s) (nozzle_diameter s) (filament_area s)
    (max_extrude_ratio s) (max_e_velocity s) (max_e_accel s) (max_e_dist s)
    (instant_corner_v s) (pressure_advance s) (pressure_advance_smooth_time s)
    v (extrude_pos s) (extrude_pa_pos s).

Definition set_extrude_pos (v : Q) (s : PrinterExtruder) :=
  mkPrinterExtruder (heater s) (nozzle_diameter s) (filament_area s)
    (max_extrude_ratio s) (max_e_velocity s) (max_e_accel s) (max_e_dist s)
    (instant_corner_v s) (pressure_advance s) (pressure_advance_smooth_time s)
    (need_motor_enable s) v (extrude_pa_pos s).

Definition set_extrude_pa_pos (v : Q) (s : PrinterExtruder) :=
  mkPrinterExtruder (heater s) (nozzle_diameter s) (filament_area s)
    (max_extrude_ratio s) (max_e_velocity s) (max_e_accel s) (max_e_dist s)
    (instant_corner_v s) (pressure_advance s) (pressure_advance_smooth_time s)
    (need_motor_enable s) (extrude_pos s) v.

(** ** The method monad *)

(** [S] is the object the code runs on: a [PrinterExtruder] for the
    methods, nothing ([unit]) for the constructor's local computation. *)
Record Outcome (S A : Type) : Type := mkOutcome {
  final : S;
  trace : list event;
  value : result A
}.
Arguments mkOutcome {S A} _ _ _.
Arguments final {S A} _.
Arguments trace {S A} _.
Arguments value {S A} _.

Definition M (S A : Type) : Type := S -> Outcome S A.

Definition ret {S A} (a : A) : M S A := fun s => mkOutcome s [] (inr a).

Definition bind {S A B} (c : M S A) (k : A -> M S B) : M S B := fun s =>
  let o := c s in
  match value o with
  | inl e => mkOutcome (final o) (trace o) (inl e)
  | inr a =>
      let o' := k a (final o) in
      mkOutcome (final o') (trace o ++ trace o') (value o')
  end.

Definition raise {S A} (e : exn) : M S A := fun s => mkOutcome s [] (inl e).
Definition lift {S A} (r : result A) : M S A := fun s => mkOutcome s [] r.
Definition self {S} : M S S := fun s => mkOutcome s [] (inr s).
Definition update {S} (f : S -> S) : M S unit :=
  fun s => mkOutcome (f s) [] (inr tt).
Definition call {S} (e : event) : M S unit :=
  fun s => mkOutcome s [e] (inr tt).

(** Runs a method on the object [obj] from code that has no object of its
    own, and returns the object as the method leaves it. *)
Definition on_object {A} (obj : PrinterExtruder) (c : M PrinterExtruder A)
  : M unit PrinterExtruder := fun u =>
  let o := c obj in
  mkOutcome u (trace o)
    match value o with inl e => inl e | inr _ => inr (final o) end.

Abbreviation Method := (M PrinterExtruder).

Declare Scope py_scope.
Delimit Scope py_scope with py.
Notation "x <- c ;; k" := (bind c (fun x => k))
  (at level 100, c at next level, right associativity) : py_scope.
Notation "c ;; k" := (bind c (fun _ => k))
  (at level 100, right associativity) : py_scope.
Local Open Scope py_scope.

(** ** [PrinterExtruder.check_move] *)

Definition check_move (move : Move) : Method unit :=
  extrude_r <- lift (Py.div (ix3 (axes_d move)) (move_d move)) ;;
  s <- self ;;
  if negb (can_extrude (heater s)) then
    raise (EndstopError ExtrudeBelowMinTemp)
  else if negb (is_kinematic_move move) || Py.ltb extrude_r 0 then
    (* Extrude only move (or retraction move) - limit accel and velocity *)
    if Py.gtb (Qabs (ix3 (axes_d move))) (max_e_dist s) then
      raise (EndstopError
               (ExtrudeOnlyTooLong (ix3 (axes_d move)) (max_e_dist s)))
    else
      inv_extrude_r <- lift (Py.div 1 (Qabs extrude_r)) ;;
      call (LimitSpeed (max_e_velocity s * inv_extrude_r)
                       (max_e_accel s * inv_extrude_r))
  else if Py.gtb extrude_r (max_extrude_ratio s) then
    if Py.leb (ix3 (axes_d move)) (nozzle_diameter s * max_extrude_ratio s)
    then
      (* Permit extrusion if amount extruded is tiny *)
      ret tt
    else
      area <- lift (Py.div (ix3 (axes_d move) * filament_area s)
                           (move_d move)) ;;
      call (LogOverextrude extrude_r (max_extrude_ratio s) area
                           (move_d move)) ;;
      raise (EndstopError
               (ExceedsMaxExtrusion area
                  (max_extrude_ratio s * filament_area s)))
  else
    ret tt.

(** ** [PrinterExtruder.calc_junction] *)

Definition calc_junction (prev_move move : Move) : Method Q :=
  extrude_r <- lift (Py.div (ix3 (axes_d move)) (move_d move)) ;;
  prev_extrude_r <-
    lift (Py.div (ix3 (axes_d prev_move)) (move_d prev_move)) ;;
  let diff_r := extrude_r - prev_extrude_r in
  s <- self ;;
  if Py.truthy diff_r then
    v <- lift (Py.div (instant_corner_v s) (Qabs diff_r)) ;;
    ret (v ^ 2)
  else
    ret (max_cruise_v2 move).

(** ** [PrinterExtruder.lookahead], [set_active], [motor_off] *)

Definition lookahead {A} (moves : list Move) (flush_count : A) (lazy : bool)
  : Method A :=
  ret flush_count.

Definition set_active (print_time : Q) (is_active : bool) : Method Q :=
  s <- self ;;
  ret (extrude_pos s).

Definition motor_off (print_time : Q) : Method unit :=
  call (MotorEnable print_time false) ;;
  update (set_need_motor_enable true).

(** ** [PrinterExtruder.move] *)

Definition move (print_time : Q) (move : Move) : Method unit :=
  s <- self ;;
  (if need_motor_enable s then
     call (MotorEnable print_time true) ;;
     update (set_need_motor_enable false)
   else ret tt) ;;
  let axis_d := ix3 (axes_d move) in
  axis_r <- lift (Py.div axis_d (move_d move)) ;;
  let accel := accel move * axis_r in
  let start_v := start_v move * axis_r in
  let cruise_v := cruise_v move * axis_r in
  let is_pa_move :=
    Py.geb axis_d 0
    && (Py.truthy (ix0 (axes_d move)) || Py.truthy (ix1 (axes_d move))) in
  (* Queue movement *)
  s <- self ;;
  call (ExtruderMoveFill print_time
          (accel_t move) (cruise_t move) (decel_t move)
          (ix3 (start_pos move)) (extrude_pa_pos s)
          start_v cruise_v accel is_pa_move) ;;
  update (set_extrude_pos (ix3 (end_pos move))) ;;
  if is_pa_move then
    update (fun s => set_extrude_pa_pos (extrude_pa_pos s + axis_d) s)
  else ret tt.

(** ** [PrinterExtruder._set_pressure_advance] and [get_status] *)

Definition _set_pressure_advance (advance smooth_time : Q) : Method unit :=
  s <- self ;;
  let old_smooth_time :=
    if negb (Py.truthy (pressure_advance s)) then 0
    else pressure_advance_smooth_time s in
  let new_smooth_time :=
    if negb (Py.truthy advance) then 0 else smooth_time in
  call (NoteFlushDelay new_smooth_time old_smooth_time) ;;
  call (ExtruderSetPressure advance new_smooth_time) ;;
  update (set_pressure_advance_field advance) ;;
  update (set_pressure_advance_smooth_time smooth_time).

(** [dict(heater_status, pressure_advance=..., smooth_time=...)]: the two
    keywords are written over the heater's mapping. *)
Definition get_status (eventtime : Q) (s : PrinterExtruder)
  : gmap string Q :=
  <["smooth_time" := pressure_advance_smooth_time s]>
    (<["pressure_advance" := pressure_advance s]>
       (heater_get_status (heater s) eventtime)).

(** ** [PrinterExtruder.__init__] *)

(** [math.pi], the double nearest to pi: 884279719003555 / 2^48. *)
Definition math_pi : Q := 884279719003555 # 281474976710656.

(** The bounds a [config.getfloat] call passes by keyword. *)
Record Bounds : Type := mkBounds {
  minval : option Q;
  maxval : option Q;
  above : option Q
}.

Definition above_ (x : Q) : Bounds := mkBounds None None (Some x).
Definition minval_ (x : Q) : Bounds := mkBounds (Some x) None None.

Section Construction.

(** The configuration section, through its [getfloat] method (option
    name, default if any, bounds), the heater the extruder is given,
    and [toolhead.get_max_velocity()]. *)
Variable getfloat : string -> option Q -> Bounds -> result Q.
Variable the_heater : Heater.
Variable max_velocity max_accel : Q.

(** The numeric part of the constructor: it reads the settings, derives
    the limits, sets the initial state and publishes the configured
    pressure advance.  Setting up the heater and the stepper, loading
    the gcode templates and registering the commands produce none of
    the fields below. *)
Definition init : M unit PrinterExtruder :=
  nozzle_diameter <- lift (getfloat "nozzle_diameter" None (above_ 0)) ;;
  filament_diameter <-
    lift (getfloat "filament_diameter" None (minval_ nozzle_diameter)) ;;
  let filament_area := math_pi * (filament_diameter * (1 # 2)) ^ 2 in
  let def_max_cross_section := 4 * nozzle_diameter ^ 2 in
  def_max_extrude_ratio <-
    lift (Py.div def_max_cross_section filament_area) ;;
  max_cross_section <-
    lift (getfloat "max_extrude_cross_section"
            (Some def_max_cross_section) (above_ 0)) ;;
  max_extrude_ratio <- lift (Py.div max_cross_section filament_area) ;;
  call (LogMaxExtrudeRatio max_extrude_ratio) ;;
  max_e_velocity <-
    lift (getfloat "max_extrude_only_velocity"
            (Some (max_velocity * def_max_extrude_ratio)) (above_ 0)) ;;
  max_e_accel <-
    lift (getfloat "max_extrude_only_accel"
            (Some (max_accel * def_max_extrude_ratio)) (above_ 0)) ;;
  call (SetMaxJerk (99999999 # 10) (99999999 # 10)) ;;
  max_e_dist <-
    lift (getfloat "max_extrude_only_distance" (Some 50) (minval_ 0)) ;;
  instant_corner_v <-
    lift (getfloat "instantaneous_corner_velocity" (Some 1) (minval_ 0)) ;;
  pressure_advance <-
    lift (getfloat "pressure_advance" (Some 0) (minval_ 0)) ;;
  smooth_time <-
    lift (getfloat "pressure_advance_smooth_time" (Some (20 # 1000))
            (mkBounds None (Some (100 # 1000)) (Some 0))) ;;
  on_object
    (mkPrinterExtruder the_heater nozzle_diameter filament_area
       max_extrude_ratio max_e_velocity max_e_accel max_e_dist
       instant_corner_v
       0 0      (* pressure_advance = pressure_advance_smooth_time = 0. *)
       true     (* need_motor_enable = True *)
       0 0      (* extrude_pos = extrude_pa_pos = 0. *))
    (_set_pressure_advance pressure_advance smooth_time).

End Construction.

(** ** [DummyExtruder] *)

Module DummyExtruder.

Definition set_active (print_time : Q) (is_active : bool) : result Q :=
  inr 0.

Definition motor_off (move_time : Q) : result unit := inr tt.

Definition check_move (move : Move) : result unit :=
  inl (EndstopMoveError (end_pos move) "Extrude when no extruder present").

Definition calc_junction (prev_move move : Move) : result Q :=
  inr (max_cruise_v2 move).

Definition lookahead {A} (moves : list Move) (flush_count : A)
    (lazy : bool) : result A :=
  inr flush_count.

End DummyExtruder.

(** ** A configured printer, for the examples *)

(** Modelled from the spec: the configuration section and its [getfloat]
    live in the configuration module, which is not part of this file.  The
    spec asks that every setting is validated at construction and that a
    range failure is a [ConfigError]; the bounds are the keywords the
    constructor passes ([minval], [maxval] inclusive, [above] strict), and
    they are checked on a default as on a configured value. *)
Definition section_getfloat (section : gmap string Q)
    (name : string) (default : option Q) (b : Bounds) : result Q :=
  match (match section !! name with Some v => Some v | None => default end)
  with
  | None => inl (ConfigError name)
  | Some v =>
      if match minval b with Some lo => Py.ltb v lo | None => false end
      then inl (ConfigError name)
      else if match maxval b with Some hi => Py.gtb v hi | None => false end
      then inl (ConfigError name)
      else if match above b with Some lo => Py.leb v lo | None => false end
      then inl (ConfigError name)
      else inr v
  end.

Definition hot_heater : Heater :=
  mkHeater true
    (fun _ => <["temperature" := 210]> (<["target" := 210]> ∅)).

Definition cold_heater : Heater :=
  mkHeater false
    (fun _ => <["temperature" := 21]> (<["target" := 0]> ∅)).

(** [nozzle_diameter: 0.4], [filament_diameter: 1.75], the rest left to
    the defaults; the toolhead allows 300 mm/s and 3000 mm/s^2. *)
Definition example_section : gmap string Q :=
  <["nozzle_diameter" := 4 # 10]> (<["filament_diameter" := 175 # 100]> ∅).

Definition example_init (h : Heater) : Outcome unit PrinterExtruder :=
  init (section_getfloat example_section) h 300 3000 tt.

Definition example_extruder (h : Heater) : PrinterExtruder :=
  mkPrinterExtruder h (4 # 10)
    (27081066394483871875 # 11258999068426240000)
    (720575940379279360000 # 2708106639448387187500)
    (216172782113783808000000 # 2708106639448387187500)
    (2161727821137838080000000 # 2708106639448387187500)
    50 1 0 (20 # 1000) true 0 0.

Definition origin : Vec4 := mkVec4 0 0 0 0.

(** A move of the toolhead by [d] = (dx, dy, dz, de) from the origin, of
    length [len], with a unit trapezoid. *)
Definition example_move (d : Vec4) (len : Q) (kinematic : bool) : Move :=
  mkMove d len kinematic origin d 1000 0 50 (1 # 20) 1 (1 # 20) 2500.

(** ** Names for the conditions of [check_move] *)

Definition extrude_r (m : Move) : Q := ix3 (axes_d m) / move_d m.

(** The test of the first branch: [not move.is_kinematic_move or
    extrude_r < 0.]. *)
Definition extrude_only (m : Move) : bool :=
  negb (is_kinematic_move m) || Py.ltb (extrude_r m) 0.

Definition set_max_extrude_ratio (v : Q) (s : PrinterExtruder) :=
  mkPrinterExtruder (heater s) (nozzle_diameter s) (filament_area s)
    v (max_e_velocity s) (max_e_accel s) (max_e_dist s)
    (instant_corner_v s) (pressure_advance s) (pressure_advance_smooth_time s)
    (need_motor_enable s) (extrude_pos s) (extrude_pa_pos s).

(** ** Names used by the statements on the pressure advance *)

(** The smoothing time in effect for a gain: none when the gain is 0. *)
Definition effective_smooth_time (gain smooth_time : Q) : Q :=
  if Qeq_bool gain 0 then 0 else smooth_time.

(** The test of [move]: [axis_d >= 0. and (axes_d[0] or axes_d[1])]. *)
Definition is_pa_move (m : Move) : bool :=
  Py.geb (ix3 (axes_d m)) 0
  && (Py.truthy (ix0 (axes_d m)) || Py.truthy (ix1 (axes_d m))).

(** ** Sequences of calls from the toolhead *)

Inductive request : Type :=
  | Apply (print_time : Q) (m : Move)      (* extruder.move(print_time, m) *)
  | MotorOff (print_time : Q)              (* extruder.motor_off(print_time) *).

Definition serve (r : request) : Method unit :=
  match r with
  | Apply print_time m => move print_time m
  | MotorOff print_time => motor_off print_time
  end.

(** The requests are served in order on the same object; a request that
    raises leaves the object as it was at the raise. *)
Fixpoint run (rs : list request) (s : PrinterExtruder)
  : PrinterExtruder * list event :=
  match rs with
  | [] => (s, [])
  | r :: rs' =>
      let o := serve r s in
      let (s', tr) := run rs' (final o) in
      (s', trace o ++ tr)
  end.

Definition is_enable (e : event) : bool :=
  match e with MotorEnable _ true => true | _ => false end.

Definition is_motor_off (r : request) : bool :=
  match r with MotorOff _ => true | Apply _ _ => false end.

(** How many times a trace enables the motor, and how many motor-off
    requests a sequence holds. *)
Definition enables (tr : list event) : nat :=
  length (List.filter is_enable tr).
Definition motor_offs (rs : list request) : nat :=
  length (List.filter is_motor_off rs).

(** [latched on tr]: with the motor [on] or not before the trace, [tr]
    never enables a motor that is on. *)
Fixpoint latched (on : bool) (tr : list event) : bool :=
  match tr with
  | [] => true
  | MotorEnable _ true :: tr' => negb on && latched true tr'
  | MotorEnable _ false :: tr' => latched false tr'
  | _ :: tr' => latched on tr'
  end.

(** ** [cmd_SET_PRESSURE_ADVANCE] *)

(** A call made while a command runs: one of the extruder's own calls, or
    one of the two reports of the command.  The message is
    ["pressure_advance: %.6f\npressure_advance_smooth_time: %.6f"], kept
    here as its two numbers. *)
Inductive gcode_call : Type :=
  | ExtruderCall (e : event)
  | SetRolloverInfo (name : string) (pressure_advance smooth_time : Q)
      (* printer.set_rollover_info(name, "%s: %s" % (name, msg)) *)
  | RespondInfo (pressure_advance smooth_time : Q)
      (* gcode.respond_info(msg, log=False) *).

Section Command.

(** [gcode.get_float(name, params, default, minval=..., maxval=...)] on
    the parameters of the command being run, and [self.name]. *)
Variable get_float : string -> Q -> option Q -> option Q -> result Q.
Variable name : string.

Definition cmd_SET_PRESSURE_ADVANCE (s : PrinterExtruder)
  : PrinterExtruder * list gcode_call * result unit :=
  match get_float "ADVANCE" (pressure_advance s) (Some 0) None with
  | inl e => (s, [], inl e)
  | inr advance =>
      match get_float "SMOOTH_TIME" (pressure_advance_smooth_time s)
              (Some 0) (Some (105 # 1000)) with
      | inl e => (s, [], inl e)
      | inr smooth_time =>
          let o := _set_pressure_advance advance smooth_time s in
          match value o with
          | inl e => (final o, List.map ExtruderCall (trace o), inl e)
          | inr _ =>
              (final o,
               List.map ExtruderCall (trace o)
               ++ [SetRolloverInfo name advance smooth_time;
                   RespondInfo advance smooth_time],
               inr tt)
          end
      end
  end.

End Command.

(** ** Sequences of calls with changes of the pressure advance *)

Inductive action : Type :=
  | Request (r : request)
  | SetPressureAdvance (advance smooth_time : Q).

Definition perform (a : action) : Method unit :=
  match a with
  | Request r => serve r
  | SetPressureAdvance advance smooth_time =>
      _set_pressure_advance advance smooth_time
  end.

Fixpoint run_actions (acts : list action) (s : PrinterExtruder)
  : PrinterExtruder * list event :=
  match acts with
  | [] => (s, [])
  | a :: acts' =>
      let o := perform a s in
      let (s', tr) := run_actions acts' (final o) in
      (s', trace o ++ tr)
  end.

(** [chained old tr]: the [note_flush_delay] calls of [tr] follow one
    another, the old delay of each being the new delay of the one before,
    and [old] for the first. *)
Fixpoint chained (old : Q) (tr : list event) : Prop :=
  match tr with
  | [] => True
  | NoteFlushDelay new_delay old_delay :: tr' =>
      old_delay = old /\ chained new_delay tr'
  | _ :: tr' => chained old tr'
  end.

(** The displacement that the moves of a sequence add to
    [extrude_pa_pos]: the one of each move with a ratio ([move_d] not
    zero) that is a pressure-advance move. *)
Fixpoint pa_displacement (rs : list request) : Q :=
  match rs with
  | [] => 0
  | Apply _ m :: rs' =>
      (if negb (Qeq_bool (move_d m) 0) && is_pa_move m
       then ix3 (axes_d m) else 0) + pa_displacement rs'
  | MotorOff _ :: rs' => pa_displacement rs'
  end.

(** ** [add_printer_objects] and [get_printer_extruders] *)

(** The printer's table of objects, through the two methods this module
    calls: [printer.add_object(name, obj)], which may refuse, and
    [printer.lookup_object(name, None)]. *)
Class Printer (P Obj : Type) : Type := {
  add_object : string -> Obj -> P -> result P;
  lookup_object : string -> P -> option Obj
}.

(** What a table of objects does: an object that was added is found under
    its name, and the other names are as before. *)
Class PrinterLaws (P Obj : Type) `{Printer P Obj} : Prop := {
  lookup_add_eq : forall name obj p p',
    add_object name obj p = inr p' -> lookup_object name p' = Some obj;
  lookup_add_ne : forall name name' obj p p',
    add_object name obj p = inr p' -> name' <> name ->
    lookup_object name' p' = lookup_object name' p
}.

(** ['extruder%d' % (i,)] *)
Definition extruder_section (i : nat) : string := "extruder" +:+ pretty i.

Section Registry.

Context {P Obj : Type} `{Printer P Obj}.

(** [config.has_section(section)], and
    [PrinterExtruder(config.getsection(section), extruder_num)]. *)
Variable has_section : string -> bool.
Variable construct : string -> nat -> result Obj.

(** The loop [for i in range(99)] from index [i], with [n] indices left. *)
Fixpoint add_printer_objects_from (n i : nat) (printer : P) : result P :=
  match n with
  | O => inr printer
  | S n' =>
      let section := extruder_section i in
      if negb (has_section section) then
        if Nat.eqb i 0 && has_section "extruder" then
          match construct "extruder" 0 with
          | inl e => inl e
          | inr pe =>
              match add_object "extruder0" pe printer with
              | inl e => inl e
              | inr printer' =>
                  (* continue *)
                  add_printer_objects_from n' (S i) printer'
              end
          end
        else
          (* break *)
          inr printer
      else
        match construct section i with
        | inl e => inl e
        | inr pe =>
            match add_object section pe printer with
            | inl e => inl e
            | inr printer' => add_printer_objects_from n' (S i) printer'
            end
        end
  end.

Definition add_printer_objects (printer : P) : result P :=
  add_printer_objects_from 99 0 printer.

Fixpoint get_printer_extruders_from (n i : nat) (printer : P)
    (out : list Obj) : list Obj :=
  match n with
  | O => out
  | S n' =>
      match lookup_object (extruder_section i) printer with
      | None => out                       (* break *)
      | Some extruder =>
          get_printer_extruders_from n' (S i) printer (out ++ [extruder])
      end
  end.

Definition get_printer_extruders (printer : P) : list Obj :=
  get_printer_extruders_from 99 0 printer [].

(** The section that the object of index [i] is built from: its own, or
    the section [extruder] when there is no section [extruder0]. *)
Definition source_section (i : nat) : string :=
  if has_section (extruder_section i) then extruder_section i
  else "extruder".

End Registry.

(** A table of objects as a finite map; a name is added once. *)
#[export] Instance gmap_printer {Obj : Type} : Printer (gmap string Obj) Obj := {
  add_object name obj p :=
    match p !! name with
    | Some _ => inl (ConfigError name)
    | None => inr (<[name := obj]> p)
    end;
  lookup_object name p := p !! name
}.

(** The end position of the extruder after the moves of a sequence: the
    one of the last move with a ratio, [start] when there is none. *)
Fixpoint end_position (rs : list request) (start : Q) : Q :=
  match rs with
  | [] => start
  | Apply _ m :: rs' =>
      end_position rs'
        (if Qeq_bool (move_d m) 0 then start else ix3 (end_pos m))
  | MotorOff _ :: rs' => end_position rs' start
  end.

(** The number of extruders that the scan of [n] indices from [i] finds
    configured: it stops at the first index without a section, the
    section [extruder] standing for index 0. *)
Fixpoint configured (has_section : string -> bool) (n i : nat) : nat :=
  match n with
  | O => O
  | S n' =>
      if has_section (extruder_section i)
         || (Nat.eqb i 0 && has_section "extruder")
      then S (configured has_section n' (S i))
      else O
  end.

(** [within b v]: the value [v] is inside the bounds [b] of a
    [getfloat] call, [minval] and [maxval] included, [above] excluded. *)
Definition within (b : Bounds) (v : Q) : Prop :=
  (forall lo, minval b = Some lo -> lo <= v)
  /\ (forall hi, maxval b = Some hi -> v <= hi)
  /\ (forall lo, above b = Some lo -> lo < v).

(** * Properties *)

(** ** Python numbers *)

Lemma ltb_true (x y : Q) : Py.ltb x y = true <-> x < y.
Proof.
  unfold Py.ltb. rewrite negb_true_iff, <- not_true_iff_false, Qle_bool_iff.
  split; [apply Qnot_le_lt | apply Qlt_not_le].
Qed.

Lemma ltb_false (x y : Q) : Py.ltb x y = false <-> y <= x.
Proof.
  unfold Py.ltb. rewrite negb_false_iff. apply Qle_bool_iff.
Qed.

Lemma gtb_true (x y : Q) : Py.gtb x y = true <-> y < x.
Proof. apply ltb_true. Qed.

Lemma gtb_false (x y : Q) : Py.gtb x y = false <-> x <= y.
Proof. apply ltb_false. Qed.

Lemma leb_true (x y : Q) : Py.leb x y = true <-> x <= y.
Proof. apply Qle_bool_iff. Qed.

Lemma truthy_true (x : Q) : Py.truthy x = true <-> ~ x == 0.
Proof.
  unfold Py.truthy.
  rewrite negb_true_iff, <- not_true_iff_false, Qeq_bool_iff. tauto.
Qed.

Lemma truthy_false (x : Q) : Py.truthy x = false <-> x == 0.
Proof. unfold Py.truthy. rewrite negb_false_iff. apply Qeq_bool_iff. Qed.

Lemma div_nonzero (x y : Q) : ~ y == 0 -> Py.div x y = inr (x / y).
Proof.
  intros Hy. unfold Py.div.
  destruct (Qeq_bool y 0) eqn:E; [|reflexivity].
  apply Qeq_bool_iff in E. contradiction.
Qed.

Lemma div_zero (x y : Q) : y == 0 -> Py.div x y = inl ZeroDivisionError.
Proof.
  intros Hy. unfold Py.div. apply Qeq_bool_iff in Hy. now rewrite Hy.
Qed.

Lemma Qabs_zero_iff (x : Q) : Qabs x == 0 <-> x == 0.
Proof.
  split; intros H.
  - pose proof (Qle_Qabs x) as Hx. pose proof (Qle_Qabs (- x)) as Hy.
    rewrite Qabs_opp in Hy. lra.
  - rewrite H. reflexivity.
Qed.

(** ** [check_move], case by case *)

(** Once the ratio is computed, [check_move] is a cascade of tests on the
    heater, the move and the limits, in the order of the source. *)
Lemma check_move_cascade (m : Move) (s : PrinterExtruder) :
  ~ move_d m == 0 ->
  check_move m s =
    if negb (can_extrude (heater s)) then
      mkOutcome s [] (inl (EndstopError ExtrudeBelowMinTemp))
    else if extrude_only m then
      if Py.gtb (Qabs (ix3 (axes_d m))) (max_e_dist s) then
        mkOutcome s []
          (inl (EndstopError
                  (ExtrudeOnlyTooLong (ix3 (axes_d m)) (max_e_dist s))))
      else if Qeq_bool (Qabs (extrude_r m)) 0 then
        mkOutcome s [] (inl ZeroDivisionError)
      else
        mkOutcome s
          [LimitSpeed (max_e_velocity s * (1 / Qabs (extrude_r m)))
                      (max_e_accel s * (1 / Qabs (extrude_r m)))]
          (inr tt)
    else if Py.gtb (extrude_r m) (max_extrude_ratio s) then
      if Py.leb (ix3 (axes_d m)) (nozzle_diameter s * max_extrude_ratio s)
      then mkOutcome s [] (inr tt)
      else
        mkOutcome s
          [LogOverextrude (extrude_r m) (max_extrude_ratio s)
             (ix3 (axes_d m) * filament_area s / move_d m) (move_d m)]
          (inl (EndstopError
                  (ExceedsMaxExtrusion
                     (ix3 (axes_d m) * filament_area s / move_d m)
                     (max_extrude_ratio s * filament_area s))))
    else mkOutcome s [] (inr tt).
Proof.
  intros Hd. unfold check_move, extrude_only, extrude_r, bind, lift, self.
  rewrite !(div_nonzero _ _ Hd). cbn.
  destruct (can_extrude (heater s)); cbn; [|reflexivity].
  destruct (negb (is_kinematic_move m) || Py.ltb _ 0); cbn.
  - destruct (Py.gtb _ (max_e_dist s)); cbn; [reflexivity|].
    unfold Py.div. destruct (Qeq_bool _ 0); reflexivity.
  - destruct (Py.gtb _ (max_extrude_ratio s)); cbn; [|reflexivity].
    destruct (Py.leb _ _); cbn; [reflexivity|].
    rewrite !(div_nonzero _ _ Hd). reflexivity.
Qed.

(** With [move_d == 0] the first statement of [check_move] raises. *)
Lemma check_move_zero_move_d (m : Move) (s : PrinterExtruder) :
  move_d m == 0 -> check_move m s = mkOutcome s [] (inl ZeroDivisionError).
Proof.
  intros Hd. unfold check_move, bind, lift.
  rewrite (div_zero _ _ Hd). reflexivity.
Qed.

Ltac by_cascade m s Hd :=
  rewrite (check_move_cascade m s Hd);
  repeat match goal with
         | |- context [if ?b then _ else _] => destruct b eqn:?; cbn
         end.

Ltac nonzero := let H := fresh in intros H; vm_compute in H; discriminate H.

(** C1, as stated, fails on a move of length zero: the heater is cold, and
    [check_move] raises [ZeroDivisionError] from the ratio on its first
    line, not the minimum-temperature error. *)
Lemma check_move_cold_zero_length :
  can_extrude (heater (example_extruder cold_heater)) = false /\
  value (check_move (example_move (mkVec4 0 0 0 5) 0 false)
           (example_extruder cold_heater))
  = inl ZeroDivisionError /\
  value (check_move (example_move (mkVec4 0 0 0 5) 0 false)
           (example_extruder cold_heater))
  <> inl (EndstopError ExtrudeBelowMinTemp).
Proof. repeat split. intros H. vm_compute in H. discriminate H. Qed.

(** C1 (amended): for every move of nonzero [move_d], [check_move] tests
    in the order minimum temperature, extrude-only branch, ratio branch,
    tiny-extrusion exception.  With a heater that cannot extrude the
    outcome is the minimum-temperature error, with no call on the move; a
    distance rejection is reported only by the extrude-only branch with
    the heater able to extrude; a cross-section rejection is reported only
    when the heater can extrude, the move is not extrude-only, the ratio
    is over the limit and the extruded amount is over the tiny-extrusion
    threshold. *)
Theorem check_move_order (m : Move) (s : PrinterExtruder) :
  ~ move_d m == 0 ->
  (can_extrude (heater s) = false ->
     check_move m s = mkOutcome s [] (inl (EndstopError ExtrudeBelowMinTemp)))
  /\ (forall dist lim,
        value (check_move m s)
        = inl (EndstopError (ExtrudeOnlyTooLong dist lim)) ->
        can_extrude (heater s) = true /\ extrude_only m = true)
  /\ (forall area lim,
        value (check_move m s)
        = inl (EndstopError (ExceedsMaxExtrusion area lim)) ->
        can_extrude (heater s) = true /\ extrude_only m = false
        /\ max_extrude_ratio s < extrude_r m
        /\ nozzle_diameter s * max_extrude_ratio s < ix3 (axes_d m)).
Proof.
  intros Hd. split; [|split].
  - intros Hc. rewrite (check_move_cascade m s Hd), Hc. reflexivity.
  - intros dist lim. by_cascade m s Hd; try discriminate.
    intros _. split; [|reflexivity]. now destruct (can_extrude (heater s)).
  - intros area lim. by_cascade m s Hd; try discriminate.
    intros _. split; [now destruct (can_extrude (heater s))|].
    split; [reflexivity|]. split.
    + now apply gtb_true.
    + apply Qnot_le_lt. intros Hle. apply leb_true in Hle. congruence.
Qed.

(** A cold heater and an extrude-only move of 60 mm, over the 50 mm limit:
    the temperature is reported, not the distance. *)
Lemma check_move_order_witness :
  check_move (example_move (mkVec4 0 0 0 60) 60 false)
    (example_extruder cold_heater)
  = mkOutcome (example_extruder cold_heater) []
      (inl (EndstopError ExtrudeBelowMinTemp)).
Proof.
  apply (proj1 (check_move_order (example_move (mkVec4 0 0 0 60) 60 false)
                  (example_extruder cold_heater) ltac:(nonzero))).
  reflexivity.
Defined.

Lemma extrude_only_ratio_free (m : Move) (s : PrinterExtruder) (v : Q) :
  ~ move_d m == 0 -> extrude_only m = true ->
  trace (check_move m (set_max_extrude_ratio v s)) = trace (check_move m s)
  /\ value (check_move m (set_max_extrude_ratio v s))
     = value (check_move m s).
Proof.
  intros Hd Ho.
  rewrite (check_move_cascade m s Hd), (check_move_cascade m _ Hd), Ho. cbn.
  repeat match goal with
         | |- context [if ?b then _ else _] => destruct b; cbn
         end; split; reflexivity.
Qed.

(** C2, as stated, fails on an extrude-only move of length zero with a
    hot heater: [check_move] does not take the extrude-only branch, it
    raises [ZeroDivisionError] from [axes_d[3] / move_d]. *)
Lemma check_move_hot_zero_length :
  move_d (example_move (mkVec4 0 0 0 5) 0 false) == 0 /\
  check_move (example_move (mkVec4 0 0 0 5) 0 false)
    (example_extruder hot_heater)
  = mkOutcome (example_extruder hot_heater) [] (inl ZeroDivisionError).
Proof. split; reflexivity. Qed.

(** C2 (amended): a move of nonzero [move_d] that is not a kinematic move,
    or whose extrude ratio is negative, takes the extrude-only branch and
    is never compared with [max_extrude_ratio]: the calls and the outcome
    of [check_move] are the same whatever that limit is, and the outcome
    is never the cross-section error; when the ratio is not zero, as it
    is for every retraction, [check_move] raises no [ZeroDivisionError]
    on such a move.  On a move with [move_d == 0] the ratio computation
    raises [ZeroDivisionError]. *)
Theorem check_move_extrude_only (m : Move) (s : PrinterExtruder) :
  (move_d m == 0 ->
     check_move m s = mkOutcome s [] (inl ZeroDivisionError))
  /\ (~ move_d m == 0 -> extrude_only m = true ->
        (forall v,
           trace (check_move m (set_max_extrude_ratio v s))
           = trace (check_move m s)
           /\ value (check_move m (set_max_extrude_ratio v s))
              = value (check_move m s))
        /\ (forall area lim,
              value (check_move m s)
              <> inl (EndstopError (ExceedsMaxExtrusion area lim)))
        /\ (~ extrude_r m == 0 ->
              value (check_move m s) <> inl ZeroDivisionError)
        /\ (extrude_r m < 0 ->
              value (check_move m s) <> inl ZeroDivisionError)).
Proof.
  split; [apply check_move_zero_move_d|].
  intros Hd Ho.
  assert (Hnz : ~ extrude_r m == 0 ->
                value (check_move m s) <> inl ZeroDivisionError).
  { intros Hr.
    assert (Hz : Qeq_bool (Qabs (extrude_r m)) 0 = false).
    { apply not_true_iff_false. intros E. apply Qeq_bool_iff in E.
      apply Hr. exact (proj1 (Qabs_zero_iff _) E). }
    rewrite (check_move_cascade m s Hd), Ho, Hz.
    destruct (negb _); [discriminate|].
    destruct (Py.gtb _ _); discriminate. }
  split; [|split; [|split]].
  - intros v. now apply extrude_only_ratio_free.
  - intros area lim. rewrite (check_move_cascade m s Hd), Ho.
    repeat match goal with
           | |- context [if ?b then _ else _] => destruct b; cbn
           end; discriminate.
  - exact Hnz.
  - intros Hneg. apply Hnz. intros E. rewrite E in Hneg.
    exact (Qlt_irrefl 0 Hneg).
Qed.

(** A retraction of 2 mm along a 10 mm travel: the ratio is -0.2, and the
    outcome is the same with a ratio limit of 0 as with the configured
    one. *)
Lemma check_move_extrude_only_witness :
  value (check_move (example_move (mkVec4 6 8 0 (-2)) 10 true)
           (set_max_extrude_ratio 0 (example_extruder hot_heater)))
  = value (check_move (example_move (mkVec4 6 8 0 (-2)) 10 true)
             (example_extruder hot_heater)).
Proof.
  apply (proj2 (check_move_extrude_only
                  (example_move (mkVec4 6 8 0 (-2)) 10 true)
                  (example_extruder hot_heater))
           ltac:(nonzero) ltac:(reflexivity)).
Defined.

(** C3: a move whose extruder displacement is at most
    [nozzle_diameter * max_extrude_ratio] in absolute value is never
    rejected with the cross-section error, whatever its ratio; and when such
    a move reaches the ratio test with a ratio over the limit, it is
    accepted as it is, with no call on the move. *)
Theorem check_move_tiny_extrusion (m : Move) (s : PrinterExtruder) :
  Qabs (ix3 (axes_d m)) <= nozzle_diameter s * max_extrude_ratio s ->
  (forall area lim,
     value (check_move m s)
     <> inl (EndstopError (ExceedsMaxExtrusion area lim)))
  /\ (~ move_d m == 0 -> can_extrude (heater s) = true ->
      extrude_only m = false -> max_extrude_ratio s < extrude_r m ->
      check_move m s = mkOutcome s [] (inr tt)).
Proof.
  intros Htiny.
  assert (Hle : Py.leb (ix3 (axes_d m))
                  (nozzle_diameter s * max_extrude_ratio s) = true).
  { apply leb_true. pose proof (Qle_Qabs (ix3 (axes_d m))). lra. }
  split.
  - intros area lim. destruct (Qeq_dec (move_d m) 0) as [Hz|Hd].
    + rewrite (check_move_zero_move_d m s Hz). discriminate.
    + rewrite (check_move_cascade m s Hd), Hle.
      repeat match goal with
             | |- context [if ?b then _ else _] => destruct b; cbn
             end; discriminate.
  - intros Hd Hc Ho Hr. apply gtb_true in Hr.
    rewrite (check_move_cascade m s Hd), Hc, Ho, Hr, Hle. reflexivity.
Qed.

(** A short segment: 0.1 mm of filament over 0.2 mm of travel.  The ratio,
    0.5, is over the limit (about 0.266); the amount is under the
    threshold (about 0.1065), and the move is accepted. *)
Lemma check_move_tiny_extrusion_witness :
  check_move (example_move (mkVec4 (2 # 10) 0 0 (1 # 10)) (2 # 10) true)
    (example_extruder hot_heater)
  = mkOutcome (example_extruder hot_heater) [] (inr tt).
Proof.
  apply (proj2 (check_move_tiny_extrusion
                  (example_move (mkVec4 (2 # 10) 0 0 (1 # 10)) (2 # 10) true)
                  (example_extruder hot_heater)
                  ltac:(vm_compute; discriminate))).
  - nonzero.
  - reflexivity.
  - reflexivity.
  - reflexivity.
Defined.



(** ** [calc_junction] *)

(** C5: for two consecutive moves whose ratios are defined, [calc_junction]
    returns [(instant_corner_v / |diff_r|)^2] when the ratios differ, and
    [move.max_cruise_v2] when they are equal; it changes nothing and calls
    nothing. *)
Theorem calc_junction_ratio (prev_move m : Move) (s : PrinterExtruder) :
  ~ move_d m == 0 -> ~ move_d prev_move == 0 ->
  (~ extrude_r m == extrude_r prev_move ->
     calc_junction prev_move m s
     = mkOutcome s []
         (inr ((instant_corner_v s
                / Qabs (extrude_r m - extrude_r prev_move)) ^ 2)))
  /\ (extrude_r m == extrude_r prev_move ->
      calc_junction prev_move m s = mkOutcome s [] (inr (max_cruise_v2 m))).
Proof.
  intros Hd Hp. unfold calc_junction, bind, lift, self.
  rewrite (div_nonzero _ _ Hd), (div_nonzero _ _ Hp).
  cbn [value final trace]. fold (extrude_r m) (extrude_r prev_move).
  split; intros Hr.
  - assert (Hdiff : ~ extrude_r m - extrude_r prev_move == 0)
      by (intros E; apply Hr; lra).
    rewrite (proj2 (truthy_true _) Hdiff). cbn [value final trace].
    rewrite div_nonzero; [reflexivity|].
    intros E. apply Hdiff. exact (proj1 (Qabs_zero_iff _) E).
  - assert (Hdiff : extrude_r m - extrude_r prev_move == 0) by lra.
    rewrite (proj2 (truthy_false _) Hdiff). reflexivity.
Qed.

(** From a travel without extrusion into a segment with ratio 0.05, at an
    instantaneous corner velocity of 1 mm/s: (1 / 0.05)^2 = 400. *)
Lemma calc_junction_ratio_witness :
  exists v,
    value (calc_junction (example_move (mkVec4 10 0 0 0) 10 true)
             (example_move (mkVec4 0 20 0 1) 20 true)
             (example_extruder hot_heater)) = inr v
    /\ v == 400.
Proof.
  eexists. split.
  - rewrite (proj1 (calc_junction_ratio
                      (example_move (mkVec4 10 0 0 0) 10 true)
                      (example_move (mkVec4 0 20 0 1) 20 true)
                      (example_extruder hot_heater)
                      ltac:(nonzero) ltac:(nonzero))).
    + reflexivity.
    + nonzero.
  - reflexivity.
Defined.

(** ** [_set_pressure_advance] *)

(** What [_set_pressure_advance] does, in one equation. *)
Lemma set_pressure_advance_outcome (g st : Q) (s : PrinterExtruder) :
  _set_pressure_advance g st s
  = mkOutcome
      (set_pressure_advance_smooth_time st (set_pressure_advance_field g s))
      [NoteFlushDelay
         (effective_smooth_time g st)
         (effective_smooth_time (pressure_advance s)
            (pressure_advance_smooth_time s));
       ExtruderSetPressure g (effective_smooth_time g st)]
      (inr tt).
Proof.
  unfold _set_pressure_advance, effective_smooth_time, Py.truthy,
    bind, self, call, update.
  cbn [value final trace]. rewrite !negb_involutive.
  destruct (Qeq_bool g 0), (Qeq_bool (pressure_advance s) 0); reflexivity.
Qed.

Lemma effective_smooth_time_zero (g st : Q) :
  g == 0 -> effective_smooth_time g st = 0.
Proof.
  intros Hg. unfold effective_smooth_time.
  now rewrite (proj2 (Qeq_bool_iff g 0) Hg).
Qed.

Lemma effective_smooth_time_nonzero (g st : Q) :
  ~ g == 0 -> effective_smooth_time g st = st.
Proof.
  intros Hg. unfold effective_smooth_time.
  destruct (Qeq_bool g 0) eqn:E; [|reflexivity].
  apply Qeq_bool_iff in E. contradiction.
Qed.

(** C6: [_set_pressure_advance g st] calls [note_flush_delay] exactly once,
    with the effective new smoothing time (0 when [g] is 0, [st]
    otherwise) and the effective old one (0 when the stored gain is 0, the
    stored smoothing time otherwise); this call is the first of the trace,
    before [g] and the effective new smoothing time are published to the
    solver, and [g] and [st] are stored.  Nothing is compared with the
    stored values: setting them again makes the same two calls. *)
Theorem set_pressure_advance_negotiates (g st : Q) (s : PrinterExtruder) :
  let new_delay := if Qeq_bool g 0 then 0 else st in
  let old_delay :=
    if Qeq_bool (pressure_advance s) 0 then 0
    else pressure_advance_smooth_time s in
  let o := _set_pressure_advance g st s in
  trace o = [NoteFlushDelay new_delay old_delay;
             ExtruderSetPressure g new_delay]
  /\ value o = inr tt
  /\ pressure_advance (final o) = g
  /\ pressure_advance_smooth_time (final o) = st
  /\ trace (_set_pressure_advance g st (final o))
     = [NoteFlushDelay new_delay new_delay;
        ExtruderSetPressure g new_delay].
Proof.
  cbv zeta. rewrite !set_pressure_advance_outcome.
  cbn [trace value final]. repeat split.
Qed.

(** The scenario of the spec: from gain 0 to gain 0.05 with a smoothing
    time of 0.04. *)
Example set_pressure_advance_scenario :
  trace (_set_pressure_advance (5 # 100) (4 # 100)
           (example_extruder hot_heater))
  = [NoteFlushDelay (4 # 100) 0; ExtruderSetPressure (5 # 100) (4 # 100)].
Proof. reflexivity. Qed.

(** Setting the stored values again negotiates again. *)
Example set_pressure_advance_again (s : PrinterExtruder) :
  trace (_set_pressure_advance (pressure_advance s)
           (pressure_advance_smooth_time s) s)
  = [NoteFlushDelay
       (effective_smooth_time (pressure_advance s)
          (pressure_advance_smooth_time s))
       (effective_smooth_time (pressure_advance s)
          (pressure_advance_smooth_time s));
     ExtruderSetPressure (pressure_advance s)
       (effective_smooth_time (pressure_advance s)
          (pressure_advance_smooth_time s))].
Proof. now rewrite set_pressure_advance_outcome. Qed.

(** C10: after [_set_pressure_advance] with gain 0 and a smoothing time
    [st] that is not 0, the stored smoothing time and the [smooth_time]
    of the status report are [st], while the smoothing time negotiated
    with the toolhead and published to the solver is 0. *)
Theorem status_reports_raw_smooth_time
    (g st eventtime : Q) (s : PrinterExtruder) :
  g == 0 -> ~ st == 0 ->
  let o := _set_pressure_advance g st s in
  pressure_advance_smooth_time (final o) = st
  /\ get_status eventtime (final o) !! "smooth_time" = Some st
  /\ (exists old,
        trace o = [NoteFlushDelay 0 old; ExtruderSetPressure g 0])
  /\ get_status eventtime (final o) !! "smooth_time" <> Some 0.
Proof.
  intros Hg Hst o. subst o. rewrite set_pressure_advance_outcome.
  cbn [final trace]. rewrite (effective_smooth_time_zero g st Hg).
  assert (Hl : get_status eventtime
                 (set_pressure_advance_smooth_time st
                    (set_pressure_advance_field g s)) !! "smooth_time"
               = Some st).
  { unfold get_status. apply lookup_insert_eq. }
  repeat split.
  - exact Hl.
  - eexists. reflexivity.
  - rewrite Hl. intros E. injection E as E. apply Hst. rewrite E. reflexivity.
Qed.

(** Pressure advance switched off with [SMOOTH_TIME=0.04]: the report
    shows 0.04. *)
Lemma status_reports_raw_smooth_time_witness :
  get_status 0
    (final (_set_pressure_advance 0 (4 # 100) (example_extruder hot_heater)))
  !! "smooth_time" = Some (4 # 100).
Proof.
  apply (status_reports_raw_smooth_time 0 (4 # 100) 0
           (example_extruder hot_heater)
           ltac:(reflexivity) ltac:(nonzero)).
Defined.

(** ** [move] *)

(** What [move] does on a move whose ratio is defined. *)
Lemma move_outcome (print_time : Q) (m : Move) (s : PrinterExtruder) :
  ~ move_d m == 0 ->
  let s1 := if need_motor_enable s then set_need_motor_enable false s
            else s in
  let s2 := set_extrude_pos (ix3 (end_pos m)) s1 in
  move print_time m s
  = mkOutcome
      (if is_pa_move m
       then set_extrude_pa_pos (extrude_pa_pos s + ix3 (axes_d m)) s2
       else s2)
      ((if need_motor_enable s then [MotorEnable print_time true] else [])
       ++ [ExtruderMoveFill print_time
             (accel_t m) (cruise_t m) (decel_t m)
             (ix3 (start_pos m)) (extrude_pa_pos s)
             (start_v m * extrude_r m) (cruise_v m * extrude_r m)
             (accel m * extrude_r m) (is_pa_move m)])
      (inr tt).
Proof.
  intros Hd. unfold move, is_pa_move, extrude_r, bind, lift, self, call,
    update, ret.
  cbn [value final trace]. destruct (need_motor_enable s) eqn:En.
  - cbn [value final trace]. rewrite (div_nonzero _ _ Hd).
    cbn [value final trace].
    destruct (Py.geb _ 0 && _); reflexivity.
  - cbn [value final trace]. rewrite (div_nonzero _ _ Hd).
    cbn [value final trace].
    destruct (Py.geb _ 0 && _); cbn; rewrite ?En; reflexivity.
Qed.

(** A move that [check_move] accepted has a ratio. *)
Lemma accepted_move_d (m : Move) (s : PrinterExtruder) :
  value (check_move m s) = inr tt -> ~ move_d m == 0.
Proof.
  intros Hok Hz. rewrite (check_move_zero_move_d m s Hz) in Hok.
  discriminate Hok.
Qed.

Lemma is_pa_move_true (m : Move) :
  is_pa_move m = true <->
  0 <= ix3 (axes_d m)
  /\ (~ ix0 (axes_d m) == 0 \/ ~ ix1 (axes_d m) == 0).
Proof.
  unfold is_pa_move, Py.geb.
  rewrite andb_true_iff, orb_true_iff, Qle_bool_iff, !truthy_true.
  reflexivity.
Qed.

(** C7: after [move(print_time, m)] on a move that [check_move] accepted,
    [extrude_pos] is [m.end_pos[3]], and [extrude_pa_pos] has grown by
    [m.axes_d[3]] if the extruder displacement is not negative and the
    move has an X or Y displacement, and is unchanged otherwise. *)
Theorem move_updates_positions
    (print_time : Q) (m : Move) (s0 s : PrinterExtruder) :
  value (check_move m s0) = inr tt ->
  let o := move print_time m s in
  value o = inr tt
  /\ extrude_pos (final o) = ix3 (end_pos m)
  /\ (0 <= ix3 (axes_d m)
      /\ (~ ix0 (axes_d m) == 0 \/ ~ ix1 (axes_d m) == 0) ->
      extrude_pa_pos (final o) = extrude_pa_pos s + ix3 (axes_d m))
  /\ (~ (0 <= ix3 (axes_d m)
         /\ (~ ix0 (axes_d m) == 0 \/ ~ ix1 (axes_d m) == 0)) ->
      extrude_pa_pos (final o) = extrude_pa_pos s).
Proof.
  intros Hok o. subst o.
  rewrite (move_outcome print_time m s (accepted_move_d m s0 Hok)).
  cbn [value final]. split; [reflexivity|]. split; [|split].
  - destruct (is_pa_move m), (need_motor_enable s); reflexivity.
  - intros Hpa. apply is_pa_move_true in Hpa. rewrite Hpa.
    destruct (need_motor_enable s); reflexivity.
  - intros Hpa. destruct (is_pa_move m) eqn:E.
    + apply is_pa_move_true in E. contradiction.
    + destruct (need_motor_enable s); reflexivity.
Qed.

(** A printing move, 0.25 mm of filament over a 5 mm diagonal: both
    positions advance to 0.25. *)
Lemma move_updates_positions_witness :
  extrude_pos
    (final (move 1 (example_move (mkVec4 3 4 0 (1 # 4)) 5 true)
              (example_extruder hot_heater))) = 1 # 4
  /\ extrude_pa_pos
       (final (move 1 (example_move (mkVec4 3 4 0 (1 # 4)) 5 true)
                 (example_extruder hot_heater))) = 0 + (1 # 4).
Proof.
  pose proof (move_updates_positions 1
                (example_move (mkVec4 3 4 0 (1 # 4)) 5 true)
                (example_extruder hot_heater) (example_extruder hot_heater)
                ltac:(reflexivity)) as (_ & Hpos & Hpa & _).
  split; [exact Hpos|].
  apply Hpa. split; [vm_compute; discriminate|].
  left. nonzero.
Defined.

(** A move without displacement of the extruder is accepted, and sets
    [extrude_pos] to its end position all the same. *)
Example move_zero_displacement :
  value (check_move (example_move (mkVec4 0 0 2 0) 2 true)
           (example_extruder hot_heater)) = inr tt
  /\ final (move 1 (example_move (mkVec4 0 0 2 0) 2 true)
              (set_extrude_pos 7 (example_extruder hot_heater)))
     = set_need_motor_enable false (example_extruder hot_heater).
Proof. split; reflexivity. Qed.

(** ** The motor-enable latch *)

Lemma enables_app (tr1 tr2 : list event) :
  enables (tr1 ++ tr2) = (enables tr1 + enables tr2)%nat.
Proof. unfold enables. now rewrite List.filter_app, List.length_app. Qed.

(** One [move]: it enables the motor, once and first, exactly when the
    flag is set, and leaves the flag cleared, also when it raises. *)
Lemma move_latch (print_time : Q) (m : Move) (s : PrinterExtruder) :
  need_motor_enable (final (move print_time m s)) = false
  /\ exists tr,
       trace (move print_time m s)
       = (if need_motor_enable s then [MotorEnable print_time true] else [])
         ++ tr
       /\ enables tr = 0%nat /\ forall on, latched on tr = true.
Proof.
  destruct (Qeq_dec (move_d m) 0) as [Hz|Hd].
  - unfold move, bind, lift, self, call, update, ret.
    cbn [value final trace].
    destruct (need_motor_enable s) eqn:En; cbn [value final trace];
      rewrite (div_zero _ _ Hz); cbn [value final trace];
      (split; [assumption || reflexivity|]);
      exists []; repeat split; reflexivity.
  - rewrite (move_outcome print_time m s Hd). cbn [final trace]. split.
    + destruct (is_pa_move m), (need_motor_enable s) eqn:En;
        cbn; rewrite ?En; reflexivity.
    + eexists. split; [reflexivity|]. split; [reflexivity|].
      intros on. reflexivity.
Qed.

Lemma run_cons (r : request) (rs : list request) (s : PrinterExtruder) :
  run (r :: rs) s
  = (fst (run rs (final (serve r s))),
     trace (serve r s) ++ snd (run rs (final (serve r s)))).
Proof. cbn [run]. now destruct (run rs (final (serve r s))). Qed.

(** A sequence of requests enables the motor at most once for the pending
    flag and once per motor-off request. *)
Lemma run_enables (rs : list request) (s : PrinterExtruder) :
  (enables (snd (run rs s))
   <= (if need_motor_enable s then 1 else 0) + motor_offs rs)%nat.
Proof.
  revert s. induction rs as [|r rs IH]; intros s.
  - cbn. lia.
  - rewrite run_cons. cbn [snd]. rewrite enables_app.
    specialize (IH (final (serve r s))). destruct r as [t m|t].
    + cbn [serve] in *.
      destruct (move_latch t m s) as (Hf & tr & Htr & Hq & _).
      rewrite Hf in IH. rewrite Htr, enables_app, Hq.
      unfold motor_offs in *. cbn [List.filter is_motor_off].
      destruct (need_motor_enable s); cbn in *; lia.
    + cbn [serve] in *. unfold motor_offs in *.
      cbn in *. destruct (need_motor_enable s); lia.
Qed.

(** In the trace of a sequence of requests, the motor is never enabled
    while it is on. *)
Lemma run_latched (rs : list request) (s : PrinterExtruder) :
  latched (negb (need_motor_enable s)) (snd (run rs s)) = true.
Proof.
  revert s. induction rs as [|r rs IH]; intros s.
  - reflexivity.
  - rewrite run_cons. cbn [snd].
    specialize (IH (final (serve r s))). destruct r as [t m|t].
    + cbn [serve] in *.
      unfold move, bind, lift, self, call, update, ret in *.
      cbn [value final trace] in *.
      destruct (need_motor_enable s) eqn:En; cbn [value final trace] in *;
        destruct (Py.div _ _); cbn [value final trace] in *;
        repeat match goal with
               | H : context [if ?b then _ else _] |- _ =>
                   destruct b; cbn [value final trace] in H
               | |- context [if ?b then _ else _] =>
                   destruct b; cbn [value final trace]
               end;
        cbn in *; rewrite ?En in IH; exact IH.
    + cbn in *. exact IH.
Qed.

(** A sequence returns only if its first part does, and then its second
    part returns from the state the first one left. *)
Lemma bind_value_inr {S A B} (c : M S A) (k : A -> M S B) (s : S) (b : B) :
  value (bind c k s) = inr b ->
  exists a, value (c s) = inr a /\ value (k a (final (c s))) = inr b.
Proof.
  unfold bind. destruct (value (c s)) as [e|a]; cbn [value].
  - discriminate.
  - intros H. exists a. split; [reflexivity | exact H].
Qed.

(** An object that the constructor returns has the flag set. *)
Lemma init_need_motor_enable
    (getfloat : string -> option Q -> Bounds -> result Q)
    (h : Heater) (max_velocity max_accel : Q) :
  match value (init getfloat h max_velocity max_accel tt) with
  | inr obj => need_motor_enable obj = true
  | inl _ => True
  end.
Proof.
  destruct (value (init getfloat h max_velocity max_accel tt)) as [e|obj]
    eqn:E; [exact I|].
  unfold init in E.
  repeat (apply bind_value_inr in E; destruct E as (? & _ & E)).
  unfold on_object in E. rewrite set_pressure_advance_outcome in E.
  cbn [value final trace] in E. injection E as <-. reflexivity.
Qed.

(** C8: the motor is enabled at most once per idle-to-active transition.
    In the trace of any sequence of [move] and [motor_off] requests the
    motor is never enabled while it is on, and it is enabled at most once
    for the initial pending flag and once per [motor_off]; a [move] enables
    the motor exactly when the flag is set and always leaves the flag
    cleared; [motor_off] sets the flag again, and so does the
    constructor. *)
Theorem motor_enable_once (rs : list request) (s : PrinterExtruder) :
  (enables (snd (run rs s))
   <= (if need_motor_enable s then 1 else 0) + motor_offs rs)%nat
  /\ latched (negb (need_motor_enable s)) (snd (run rs s)) = true
  /\ (forall print_time m,
        enables (trace (move print_time m s))
        = (if need_motor_enable s then 1 else 0)%nat
        /\ need_motor_enable (final (move print_time m s)) = false)
  /\ (forall print_time,
        enables (trace (motor_off print_time s)) = 0%nat
        /\ need_motor_enable (final (motor_off print_time s)) = true)
  /\ (forall getfloat h max_velocity max_accel,
        match value (init getfloat h max_velocity max_accel tt) with
        | inr obj => need_motor_enable obj = true
        | inl _ => True
        end).
Proof.
  split; [apply run_enables|]. split; [apply run_latched|].
  split; [|split].
  - intros t m. destruct (move_latch t m s) as (Hf & tr & Htr & Hq & _).
    split; [|exact Hf]. rewrite Htr, enables_app, Hq.
    destruct (need_motor_enable s); reflexivity.
  - intros t. split; reflexivity.
  - apply init_need_motor_enable.
Qed.

(** Two moves, a motor-off and a third move on a new extruder: the motor
    is enabled before the first and the third move only. *)
Example motor_enable_sequence :
  List.filter
    (fun e => match e with MotorEnable _ _ => true | _ => false end)
    (snd (run [Apply 1 (example_move (mkVec4 3 4 0 (1 # 4)) 5 true);
               Apply 2 (example_move (mkVec4 3 4 0 (1 # 4)) 5 true);
               MotorOff 3;
               Apply 4 (example_move (mkVec4 3 4 0 (1 # 4)) 5 true)]
            (example_extruder hot_heater)))
  = [MotorEnable 1 true; MotorEnable 3 false; MotorEnable 4 true].
Proof. reflexivity. Qed.

(** The constructor, run on the example section, returns the example
    extruder. *)
Example example_init_extruder (h : Heater) :
  example_init h
  = mkOutcome tt
      [LogMaxExtrudeRatio (max_extrude_ratio (example_extruder h));
       SetMaxJerk (99999999 # 10) (99999999 # 10);
       NoteFlushDelay 0 0; ExtruderSetPressure 0 0]
      (inr (example_extruder h)).
Proof. reflexivity. Qed.

(** ** [DummyExtruder] *)

(** C9: the stand-in rejects every move with its fixed message, returns
    the move's own [max_cruise_v2] at a junction, and reports the position
    0. *)
Theorem dummy_extruder_stand_in
    (prev_move m : Move) (print_time : Q) (is_active : bool) :
  DummyExtruder.check_move m
  = inl (EndstopMoveError (end_pos m) "Extrude when no extruder present")
  /\ DummyExtruder.check_move m <> inr tt
  /\ DummyExtruder.calc_junction prev_move m = inr (max_cruise_v2 m)
  /\ DummyExtruder.set_active print_time is_active = inr 0.
Proof. repeat split. discriminate. Qed.

(** * Further properties of the module *)

(** ** [check_move]: effects, faults and reported values *)

(** X1: [check_move] never changes the extruder.  A move that it rejects
    has not been passed to [limit_speed]; a move that it accepts has been
    passed to it once or not at all, and nothing else was called. *)
Theorem check_move_effects (m : Move) (s : PrinterExtruder) :
  final (check_move m s) = s
  /\ (forall e, value (check_move m s) = inl e ->
      forall speed acc,
        ~ List.In (LimitSpeed speed acc) (trace (check_move m s)))
  /\ (value (check_move m s) = inr tt ->
      trace (check_move m s) = []
      \/ exists speed acc, trace (check_move m s) = [LimitSpeed speed acc]).
Proof.
  destruct (Qeq_dec (move_d m) 0) as [Hz|Hd].
  - rewrite (check_move_zero_move_d m s Hz). cbn.
    split; [reflexivity|]. split; [tauto | discriminate].
  - by_cascade m s Hd; cbn [final trace value];
      (split; [reflexivity|split]).
    all: try (intros e He speed acc Hin; try discriminate He;
              cbn in Hin; intuition discriminate).
    all: intros Hv; try discriminate Hv;
      solve [left; reflexivity | right; eexists _, _; reflexivity].
Qed.

(** A cross-section rejection: the log is called, [limit_speed] is not. *)
Lemma check_move_effects_witness :
  ~ List.In (LimitSpeed 1 1)
      (trace (check_move (example_move (mkVec4 2 0 0 1) 2 true)
                (example_extruder hot_heater))).
Proof.
  eapply (proj1 (proj2 (check_move_effects
                          (example_move (mkVec4 2 0 0 1) 2 true)
                          (example_extruder hot_heater)))).
  reflexivity.
Defined.

(** X2: [check_move] raises [ZeroDivisionError] in two cases only: the
    move has [move_d == 0]; or the heater can extrude, the move is not a
    kinematic move, its ratio is 0 and its extruder displacement is within
    [max_e_dist] (the ratio is then inverted in the extrude-only
    branch). *)
Theorem check_move_faults (m : Move) (s : PrinterExtruder) :
  value (check_move m s) = inl ZeroDivisionError
  <-> move_d m == 0
      \/ (can_extrude (heater s) = true /\ is_kinematic_move m = false
          /\ extrude_r m == 0
          /\ Qabs (ix3 (axes_d m)) <= max_e_dist s).
Proof.
  destruct (Qeq_dec (move_d m) 0) as [Hz|Hd].
  - rewrite (check_move_zero_move_d m s Hz). cbn. tauto.
  - rewrite (check_move_cascade m s Hd). unfold extrude_only.
    destruct (can_extrude (heater s)); cbn [negb];
      [|split; [discriminate | intros [?|(? & _)]; [tauto | discriminate]]].
    destruct (Qeq_dec (extrude_r m) 0) as [Hr|Hr].
    + (* the ratio is 0 *)
      assert (Hlt : Py.ltb (extrude_r m) 0 = false).
      { apply ltb_false. rewrite Hr. apply Qle_refl. }
      assert (Hrabs : Qeq_bool (Qabs (extrude_r m)) 0 = true).
      { apply Qeq_bool_iff. now apply Qabs_zero_iff. }
      rewrite Hlt, orb_false_r, Hrabs.
      destruct (is_kinematic_move m); cbn [negb].
      * split; [|intros [?|(_ & ? & _)]; [tauto | discriminate]].
        destruct (Py.gtb _ _); [destruct (Py.leb _ _)|]; discriminate.
      * destruct (Py.gtb _ (max_e_dist s)) eqn:Hg.
        -- split; [discriminate|]. intros [?|(_ & _ & _ & Hm)]; [tauto|].
           apply gtb_true in Hg. lra.
        -- apply gtb_false in Hg.
           split; [|reflexivity]. intros _. right. tauto.
    + assert (Hnz : Qeq_bool (Qabs (extrude_r m)) 0 = false).
      { apply not_true_iff_false. rewrite Qeq_bool_iff, Qabs_zero_iff.
        exact Hr. }
      rewrite Hnz.
      split; [|intros [?|(_ & _ & ? & _)]; tauto].
      repeat match goal with
             | |- context [if ?b then _ else _] => destruct b; cbn
             end; discriminate.
Qed.

(** X3: with a heater that can extrude, a kinematic move whose ratio is
    between 0 and [max_extrude_ratio] is accepted as it is: nothing is
    called, and its speed limits are not touched. *)
Theorem check_move_accepts_within_ratio (m : Move) (s : PrinterExtruder) :
  ~ move_d m == 0 -> can_extrude (heater s) = true ->
  is_kinematic_move m = true ->
  0 <= extrude_r m -> extrude_r m <= max_extrude_ratio s ->
  check_move m s = mkOutcome s [] (inr tt).
Proof.
  intros Hd Hc Hk H0 Hmax.
  rewrite (check_move_cascade m s Hd), Hc. unfold extrude_only.
  rewrite Hk, (proj2 (ltb_false _ _) H0), (proj2 (gtb_false _ _) Hmax).
  reflexivity.
Qed.

(** A printing move with the ratio 0.05. *)
Lemma check_move_accepts_within_ratio_witness :
  check_move (example_move (mkVec4 3 4 0 (1 # 4)) 5 true)
    (example_extruder hot_heater)
  = mkOutcome (example_extruder hot_heater) [] (inr tt).
Proof.
  apply check_move_accepts_within_ratio.
  - nonzero.
  - reflexivity.
  - reflexivity.
  - vm_compute. discriminate.
  - vm_compute. discriminate.
Defined.

(** X4: the numbers of a rejection are in order.  The cross-section error
    reports the area [extrude_r * filament_area] and the limit
    [max_extrude_ratio * filament_area], and the area is over the limit;
    the distance error reports the displacement of the extruder and
    [max_e_dist], and the displacement is over it in absolute value. *)
Theorem check_move_reported_values (m : Move) (s : PrinterExtruder) :
  0 < filament_area s ->
  (forall area lim,
     value (check_move m s)
     = inl (EndstopError (ExceedsMaxExtrusion area lim)) ->
     lim < area /\ area == extrude_r m * filament_area s
     /\ lim == max_extrude_ratio s * filament_area s)
  /\ (forall dist lim,
        value (check_move m s)
        = inl (EndstopError (ExtrudeOnlyTooLong dist lim)) ->
        lim < Qabs dist /\ dist = ix3 (axes_d m) /\ lim = max_e_dist s).
Proof.
  intros Hfa. destruct (Qeq_dec (move_d m) 0) as [Hz|Hd].
  - rewrite (check_move_zero_move_d m s Hz). cbn. split; discriminate.
  - split.
    + intros area lim. by_cascade m s Hd; try discriminate.
      intros [= <- <-].
      match goal with H : Py.gtb _ _ = true |- _ => apply gtb_true in H end.
      assert (E : ix3 (axes_d m) * filament_area s / move_d m
                  == extrude_r m * filament_area s)
        by (unfold extrude_r; field; exact Hd).
      split; [|split; [exact E | reflexivity]].
      rewrite E. apply Qmult_lt_compat_r; assumption.
    + intros dist lim. by_cascade m s Hd; try discriminate.
      intros [= <- <-].
      match goal with H : Py.gtb _ _ = true |- _ => apply gtb_true in H end.
      auto.
Qed.

(** 1 mm of filament over 2 mm of travel: about 1.20 mm^2 against
    0.64 mm^2. *)
Lemma check_move_reported_values_witness :
  exists area lim,
    value (check_move (example_move (mkVec4 2 0 0 1) 2 true)
             (example_extruder hot_heater))
    = inl (EndstopError (ExceedsMaxExtrusion area lim))
    /\ lim < area.
Proof.
  eexists _, _. split; [reflexivity|].
  eapply (proj1 (check_move_reported_values
                   (example_move (mkVec4 2 0 0 1) 2 true)
                   (example_extruder hot_heater)
                   ltac:(vm_compute; reflexivity))).
  reflexivity.
Defined.

(** ** [calc_junction]: faults, symmetry and monotonicity *)

(** With two ratios, [calc_junction] returns and changes nothing. *)
Lemma calc_junction_defined (prev_move m : Move) (s : PrinterExtruder) :
  ~ move_d m == 0 -> ~ move_d prev_move == 0 ->
  calc_junction prev_move m s
  = mkOutcome s []
      (inr (if Py.truthy (extrude_r m - extrude_r prev_move)
            then (instant_corner_v s
                  / Qabs (extrude_r m - extrude_r prev_move)) ^ 2
            else max_cruise_v2 m)).
Proof.
  intros Hd Hp. unfold calc_junction, bind, lift, self.
  rewrite (div_nonzero _ _ Hd), (div_nonzero _ _ Hp).
  cbn [value final trace]. fold (extrude_r m) (extrude_r prev_move).
  destruct (Py.truthy _) eqn:E; cbn [value final trace]; [|reflexivity].
  apply truthy_true in E. rewrite div_nonzero; [reflexivity|].
  intros Ea. apply E. exact (proj1 (Qabs_zero_iff _) Ea).
Qed.

(** X5: [calc_junction] reads the extruder and calls nothing; it raises
    [ZeroDivisionError] exactly when one of the two moves has
    [move_d == 0]: the division by [|diff_r|] is made only when [diff_r]
    is not zero. *)
Theorem calc_junction_faults (prev_move m : Move) (s : PrinterExtruder) :
  final (calc_junction prev_move m s) = s
  /\ trace (calc_junction prev_move m s) = []
  /\ (value (calc_junction prev_move m s) = inl ZeroDivisionError
      <-> move_d m == 0 \/ move_d prev_move == 0).
Proof.
  destruct (Qeq_dec (move_d m) 0) as [Hz|Hd].
  - unfold calc_junction, bind, lift. rewrite (div_zero _ _ Hz).
    cbn [value final trace]. repeat split; tauto.
  - destruct (Qeq_dec (move_d prev_move) 0) as [Hpz|Hp].
    + unfold calc_junction, bind, lift.
      rewrite (div_nonzero _ _ Hd), (div_zero _ _ Hpz).
      cbn [value final trace]. repeat split; tauto.
    + rewrite (calc_junction_defined prev_move m s Hd Hp).
      cbn [value final trace]. repeat split; try discriminate; tauto.
Qed.

(** X6: between two moves whose ratios differ, the junction limit is the
    same in both orders. *)
Theorem calc_junction_symmetric (m1 m2 : Move) (s : PrinterExtruder) :
  ~ move_d m1 == 0 -> ~ move_d m2 == 0 ->
  ~ extrude_r m1 == extrude_r m2 ->
  exists v w,
    value (calc_junction m1 m2 s) = inr v
    /\ value (calc_junction m2 m1 s) = inr w
    /\ v == w.
Proof.
  intros H1 H2 Hr.
  rewrite (calc_junction_defined m1 m2 s H2 H1),
    (calc_junction_defined m2 m1 s H1 H2). cbn [value].
  rewrite (proj2 (truthy_true (extrude_r m2 - extrude_r m1)))
    by (intros E; apply Hr; lra).
  rewrite (proj2 (truthy_true (extrude_r m1 - extrude_r m2)))
    by (intros E; apply Hr; lra).
  eexists _, _. split; [reflexivity|]. split; [reflexivity|].
  assert (E : Qabs (extrude_r m2 - extrude_r m1)
              == Qabs (extrude_r m1 - extrude_r m2)).
  { rewrite <- Qabs_opp. apply Qabs_wd. ring. }
  rewrite E. reflexivity.
Qed.

(** A travel and a printing segment, in the two orders. *)
Lemma calc_junction_symmetric_witness :
  exists v w,
    value (calc_junction (example_move (mkVec4 10 0 0 0) 10 true)
             (example_move (mkVec4 0 20 0 1) 20 true)
             (example_extruder hot_heater)) = inr v
    /\ value (calc_junction (example_move (mkVec4 0 20 0 1) 20 true)
                (example_move (mkVec4 10 0 0 0) 10 true)
                (example_extruder hot_heater)) = inr w
    /\ v == w.
Proof.
  apply calc_junction_symmetric; nonzero.
Defined.



(** ** [move] and sequences of requests *)

(** With [move_d == 0], [move] raises at the ratio, after the motor
    enable. *)
Lemma move_zero_move_d (print_time : Q) (m : Move) (s : PrinterExtruder) :
  move_d m == 0 ->
  move print_time m s
  = mkOutcome
      (if need_motor_enable s then set_need_motor_enable false s else s)
      (if need_motor_enable s then [MotorEnable print_time true] else [])
      (inl ZeroDivisionError).
Proof.
  intros Hz. unfold move, bind, lift, self, call, update, ret.
  cbn [value final trace].
  destruct (need_motor_enable s); cbn [value final trace];
    rewrite (div_zero _ _ Hz); reflexivity.
Qed.

(** X8: on a move with [move_d == 0], [move] raises [ZeroDivisionError]
    after the motor enable and before the queueing: the motor has been
    enabled if that was pending and the flag is cleared, but no segment is
    queued and the two positions are as before. *)
Theorem move_without_ratio (print_time : Q) (m : Move) (s : PrinterExtruder) :
  move_d m == 0 ->
  let o := move print_time m s in
  value o = inl ZeroDivisionError
  /\ trace o
     = (if need_motor_enable s then [MotorEnable print_time true] else [])
  /\ need_motor_enable (final o) = false
  /\ extrude_pos (final o) = extrude_pos s
  /\ extrude_pa_pos (final o) = extrude_pa_pos s.
Proof.
  intros Hz o. subst o. rewrite (move_zero_move_d print_time m s Hz).
  cbn [value final trace].
  destruct (need_motor_enable s) eqn:En; repeat split; assumption.
Qed.

(** On a new extruder, the only call is the motor enable. *)
Lemma move_without_ratio_witness :
  trace (move 1 (example_move (mkVec4 0 0 0 5) 0 false)
           (example_extruder hot_heater))
  = [MotorEnable 1 true].
Proof.
  apply (move_without_ratio 1 (example_move (mkVec4 0 0 0 5) 0 false)
           (example_extruder hot_heater)).
  reflexivity.
Defined.

(** What a request leaves of the object. *)
Lemma serve_final (r : request) (s : PrinterExtruder) :
  let s' := final (serve r s) in
  heater s' = heater s
  /\ nozzle_diameter s' = nozzle_diameter s
  /\ filament_area s' = filament_area s
  /\ max_extrude_ratio s' = max_extrude_ratio s
  /\ max_e_velocity s' = max_e_velocity s
  /\ max_e_accel s' = max_e_accel s
  /\ max_e_dist s' = max_e_dist s
  /\ instant_corner_v s' = instant_corner_v s
  /\ pressure_advance s' = pressure_advance s
  /\ pressure_advance_smooth_time s' = pressure_advance_smooth_time s
  /\ extrude_pos s'
     = match r with
       | Apply _ m =>
           if Qeq_bool (move_d m) 0 then extrude_pos s else ix3 (end_pos m)
       | MotorOff _ => extrude_pos s
       end
  /\ extrude_pa_pos s'
     = match r with
       | Apply _ m =>
           if negb (Qeq_bool (move_d m) 0) && is_pa_move m
           then extrude_pa_pos s + ix3 (axes_d m) else extrude_pa_pos s
       | MotorOff _ => extrude_pa_pos s
       end.
Proof.
  destruct r as [t m|t]; cbn [serve].
  - destruct (Qeq_bool (move_d m) 0) eqn:E.
    + apply Qeq_bool_iff in E. rewrite (move_zero_move_d t m s E).
      cbn [final negb andb].
      destruct (need_motor_enable s); repeat split; reflexivity.
    + assert (Hd : ~ move_d m == 0).
      { intros Hz. apply Qeq_bool_iff in Hz. congruence. }
      rewrite (move_outcome t m s Hd). cbn [final negb andb].
      destruct (is_pa_move m), (need_motor_enable s);
        repeat split; reflexivity.
  - repeat split; reflexivity.
Qed.

Lemma run_step (r : request) (rs : list request) (s : PrinterExtruder) :
  fst (run (r :: rs) s) = fst (run rs (final (serve r s))).
Proof. rewrite run_cons. reflexivity. Qed.

(** X9: after any sequence of [move] and [motor_off] requests,
    [extrude_pos] is the end position of the last move that had a ratio
    (the starting value when there is none), [extrude_pa_pos] has grown by
    the sum of the displacements of the pressure-advance moves, and
    [set_active] returns that [extrude_pos]. *)
Theorem run_positions (rs : list request) (s : PrinterExtruder) :
  extrude_pos (fst (run rs s)) = end_position rs (extrude_pos s)
  /\ extrude_pa_pos (fst (run rs s))
     == extrude_pa_pos s + pa_displacement rs
  /\ (forall print_time is_active,
        value (set_active print_time is_active (fst (run rs s)))
        = inr (end_position rs (extrude_pos s))).
Proof.
  assert (Hpos : forall rs s,
            extrude_pos (fst (run rs s)) = end_position rs (extrude_pos s)).
  { clear. induction rs as [|r rs IH]; intros s; [reflexivity|].
    rewrite run_step, IH.
    destruct (serve_final r s) as (_&_&_&_&_&_&_&_&_&_& Hp & _).
    rewrite Hp. destruct r; reflexivity. }
  split; [apply Hpos|]. split.
  - revert s. induction rs as [|r rs IH]; intros s.
    + cbn. ring.
    + rewrite run_step, IH.
      destruct (serve_final r s) as (_&_&_&_&_&_&_&_&_&_&_& Hpa).
      rewrite Hpa. destruct r as [t m|t]; cbn [pa_displacement].
      * destruct (negb _ && _); ring.
      * reflexivity.
  - intros t a. unfold set_active, bind, self, ret. cbn [value final].
    now rewrite Hpos.
Qed.

(** X10: [move] and [motor_off] never change the heater, the limits of
    the extruder or the stored pressure advance, whatever the sequence of
    requests and whether they raise or not. *)
Theorem run_keeps_settings (rs : list request) (s : PrinterExtruder) :
  let s' := fst (run rs s) in
  heater s' = heater s
  /\ nozzle_diameter s' = nozzle_diameter s
  /\ filament_area s' = filament_area s
  /\ max_extrude_ratio s' = max_extrude_ratio s
  /\ max_e_velocity s' = max_e_velocity s
  /\ max_e_accel s' = max_e_accel s
  /\ max_e_dist s' = max_e_dist s
  /\ instant_corner_v s' = instant_corner_v s
  /\ pressure_advance s' = pressure_advance s
  /\ pressure_advance_smooth_time s' = pressure_advance_smooth_time s.
Proof.
  revert s. induction rs as [|r rs IH]; intros s.
  - cbn. repeat split.
  - cbv zeta. rewrite run_step.
    destruct (serve_final r s)
      as (H1 & H2 & H3 & H4 & H5 & H6 & H7 & H8 & H9 & H10 & _).
    destruct (IH (final (serve r s)))
      as (I1 & I2 & I3 & I4 & I5 & I6 & I7 & I8 & I9 & I10).
    repeat split; congruence.
Qed.

(** A printing move, a retraction, a motor-off and a move without ratio:
    the end position is the one of the retraction, and only the printing
    move counts for the pressure advance. *)
Example run_positions_example :
  let rs := [Apply 1 (example_move (mkVec4 3 4 0 (1 # 4)) 5 true);
             Apply 2 (example_move (mkVec4 0 0 0 (-1)) 1 false);
             MotorOff 3;
             Apply 4 (example_move (mkVec4 0 0 0 5) 0 false)] in
  end_position rs 0 = -1 /\ pa_displacement rs == 1 # 4.
Proof. split; reflexivity. Qed.

(** ** The pressure advance over time *)

(** A request makes no [note_flush_delay] call. *)
Lemma serve_trace (r : request) (s : PrinterExtruder) (old : Q)
    (tr : list event) :
  chained old (trace (serve r s) ++ tr) <-> chained old tr.
Proof.
  destruct r as [t m|t]; cbn [serve].
  - destruct (Qeq_bool (move_d m) 0) eqn:E.
    + apply Qeq_bool_iff in E. rewrite (move_zero_move_d t m s E).
      cbn [trace]. destruct (need_motor_enable s); reflexivity.
    + assert (Hd : ~ move_d m == 0).
      { intros Hz. apply Qeq_bool_iff in Hz. congruence. }
      rewrite (move_outcome t m s Hd). cbn [trace].
      destruct (need_motor_enable s); reflexivity.
  - reflexivity.
Qed.

Lemma run_actions_cons (a : action) (acts : list action)
    (s : PrinterExtruder) :
  run_actions (a :: acts) s
  = (fst (run_actions acts (final (perform a s))),
     trace (perform a s) ++ snd (run_actions acts (final (perform a s)))).
Proof.
  cbn [run_actions]. now destruct (run_actions acts (final (perform a s))).
Qed.

(** X11: over any sequence of moves, motor-offs and changes of the
    pressure advance, the [note_flush_delay] calls follow one another: the
    old delay of each call is the new delay of the call before it, and the
    old delay of the first one is the smoothing time in effect at the
    start.  The toolhead is never told of a delay that was not the last
    one negotiated. *)
Theorem flush_delays_chained (acts : list action) (s : PrinterExtruder) :
  chained
    (effective_smooth_time (pressure_advance s)
       (pressure_advance_smooth_time s))
    (snd (run_actions acts s)).
Proof.
  revert s. induction acts as [|a acts IH]; intros s.
  - exact I.
  - rewrite run_actions_cons. cbn [snd].
    specialize (IH (final (perform a s))).
    destruct a as [r|g st]; cbn [perform] in *.
    + apply serve_trace.
      destruct (serve_final r s) as (_&_&_&_&_&_&_&_& Hg & Hst & _).
      now rewrite Hg, Hst in IH.
    + rewrite set_pressure_advance_outcome in *. cbn [final trace] in *.
      cbn. split; [reflexivity|]. exact IH.
Qed.

(** Pressure advance switched on, off and on again around a move. *)
Example flush_delays_example :
  List.filter
    (fun e => match e with NoteFlushDelay _ _ => true | _ => false end)
    (snd (run_actions
            [SetPressureAdvance (5 # 100) (4 # 100);
             Request (Apply 1 (example_move (mkVec4 3 4 0 (1 # 4)) 5 true));
             SetPressureAdvance 0 (2 # 100);
             SetPressureAdvance (5 # 100) (3 # 100)]
            (example_extruder hot_heater)))
  = [NoteFlushDelay (4 # 100) 0; NoteFlushDelay 0 (4 # 100);
     NoteFlushDelay (3 # 100) 0].
Proof. reflexivity. Qed.

(** X12: the status report holds the stored [pressure_advance] and
    [smooth_time], also when the heater's report has entries of these
    names, and every other entry of the heater's report unchanged; after
    [_set_pressure_advance g st] the report is the former one with the two
    entries set to [g] and [st]. *)
Theorem get_status_entries (eventtime : Q) (s : PrinterExtruder) (k : string) :
  get_status eventtime s !! "pressure_advance" = Some (pressure_advance s)
  /\ get_status eventtime s !! "smooth_time"
     = Some (pressure_advance_smooth_time s)
  /\ (k <> "pressure_advance" -> k <> "smooth_time" ->
      get_status eventtime s !! k
      = heater_get_status (heater s) eventtime !! k)
  /\ (forall g st,
        get_status eventtime (final (_set_pressure_advance g st s))
        = <["smooth_time" := st]>
            (<["pressure_advance" := g]> (get_status eventtime s))).
Proof.
  unfold get_status. split; [|split; [|split]].
  - rewrite lookup_insert_ne by discriminate. apply lookup_insert_eq.
  - apply lookup_insert_eq.
  - intros H1 H2. now rewrite !lookup_insert_ne by congruence.
  - intros g st. rewrite set_pressure_advance_outcome. cbn [final].
    cbn [heater pressure_advance pressure_advance_smooth_time
         set_pressure_advance_smooth_time set_pressure_advance_field].
    apply map_eq. intros i.
    destruct (decide (i = "smooth_time")) as [->|H1];
      [|destruct (decide (i = "pressure_advance")) as [->|H2]];
      repeat (rewrite lookup_insert_eq
              || rewrite lookup_insert_ne by congruence);
      reflexivity.
Qed.

(** The temperature of the heater is in the extruder's report. *)
Lemma get_status_entries_witness :
  get_status 0 (example_extruder hot_heater) !! "temperature" = Some 210.
Proof.
  rewrite (proj1 (proj2 (proj2 (get_status_entries 0
                                  (example_extruder hot_heater)
                                  "temperature")))) by discriminate.
  reflexivity.
Defined.

(** ** [cmd_SET_PRESSURE_ADVANCE] *)

(** X13: the command applies its two parameters together or not at all.
    If it raises, the extruder is as before and nothing was called, also
    when [ADVANCE] was valid and [SMOOTH_TIME] was refused.  If it
    returns, both parameters were accepted, they are the values now
    stored, and the calls are: the negotiation of the delay, the solver,
    and then the two reports, which carry the values as given. *)
Theorem cmd_SET_PRESSURE_ADVANCE_all_or_nothing
    (get_float : string -> Q -> option Q -> option Q -> result Q)
    (name : string) (s : PrinterExtruder) :
  match cmd_SET_PRESSURE_ADVANCE get_float name s with
  | (s', calls, inl e) => s' = s /\ calls = []
  | (s', calls, inr _) =>
      exists g st,
        get_float "ADVANCE" (pressure_advance s) (Some 0) None = inr g
        /\ get_float "SMOOTH_TIME" (pressure_advance_smooth_time s)
             (Some 0) (Some (105 # 1000)) = inr st
        /\ pressure_advance s' = g
        /\ pressure_advance_smooth_time s' = st
        /\ calls
           = [ExtruderCall
                (NoteFlushDelay (effective_smooth_time g st)
                   (effective_smooth_time (pressure_advance s)
                      (pressure_advance_smooth_time s)));
              ExtruderCall
                (ExtruderSetPressure g (effective_smooth_time g st));
              SetRolloverInfo name g st;
              RespondInfo g st]
  end.
Proof.
  unfold cmd_SET_PRESSURE_ADVANCE.
  destruct (get_float "ADVANCE" _ _ _) as [e|g]; [split; reflexivity|].
  destruct (get_float "SMOOTH_TIME" _ _ _) as [e|st]; [split; reflexivity|].
  rewrite set_pressure_advance_outcome. cbn [value final trace].
  exists g, st. repeat split.
Qed.

(** A valid [ADVANCE] with a refused [SMOOTH_TIME]. *)
Example cmd_SET_PRESSURE_ADVANCE_refused :
  cmd_SET_PRESSURE_ADVANCE
    (fun name _ _ _ =>
       if String.eqb name "SMOOTH_TIME" then inl (ConfigError "SMOOTH_TIME")
       else inr (5 # 100))
    "extruder" (example_extruder hot_heater)
  = (example_extruder hot_heater, [], inl (ConfigError "SMOOTH_TIME")).
Proof. reflexivity. Qed.

(** X14: a command that gives neither parameter, so that both default to
    the stored values, leaves every field of the extruder as it was, and
    still negotiates (with the same old and new delay), publishes and
    reports. *)
Theorem cmd_SET_PRESSURE_ADVANCE_defaults
    (get_float : string -> Q -> option Q -> option Q -> result Q)
    (name : string) (s : PrinterExtruder) :
  get_float "ADVANCE" (pressure_advance s) (Some 0) None
  = inr (pressure_advance s) ->
  get_float "SMOOTH_TIME" (pressure_advance_smooth_time s)
    (Some 0) (Some (105 # 1000))
  = inr (pressure_advance_smooth_time s) ->
  let delay := effective_smooth_time (pressure_advance s)
                 (pressure_advance_smooth_time s) in
  cmd_SET_PRESSURE_ADVANCE get_float name s
  = (s,
     [ExtruderCall (NoteFlushDelay delay delay);
      ExtruderCall (ExtruderSetPressure (pressure_advance s) delay);
      SetRolloverInfo name (pressure_advance s)
        (pressure_advance_smooth_time s);
      RespondInfo (pressure_advance s) (pressure_advance_smooth_time s)],
     inr tt).
Proof.
  intros Hg Hst delay. subst delay.
  unfold cmd_SET_PRESSURE_ADVANCE.
  rewrite Hg, Hst, set_pressure_advance_outcome. cbn [final trace value].
  destruct s; reflexivity.
Qed.

(** A reader that finds no parameter returns the defaults. *)
Lemma cmd_SET_PRESSURE_ADVANCE_defaults_witness :
  fst (fst (cmd_SET_PRESSURE_ADVANCE (fun _ default _ _ => inr default)
              "extruder" (example_extruder hot_heater)))
  = example_extruder hot_heater.
Proof.
  rewrite (cmd_SET_PRESSURE_ADVANCE_defaults
             (fun _ default _ _ => inr default) "extruder"
             (example_extruder hot_heater)
             ltac:(reflexivity) ltac:(reflexivity)).
  reflexivity.
Defined.

(** ** The constructor *)

Lemma bind_lift {S A B} (r : result A) (k : A -> M S B) (s : S) :
  bind (lift r) k s
  = match r with inl e => mkOutcome s [] (inl e) | inr a => k a s end.
Proof.
  unfold bind, lift. destruct r as [e|a]; cbn [value final trace].
  - reflexivity.
  - now destruct (k a s).
Qed.

Lemma bind_call {S B} (ev : event) (k : unit -> M S B) (s : S) :
  bind (call ev) k s
  = mkOutcome (final (k tt s)) (ev :: trace (k tt s)) (value (k tt s)).
Proof. reflexivity. Qed.

Lemma div_inr (x y v : Q) : Py.div x y = inr v -> ~ y == 0 /\ v = x / y.
Proof.
  unfold Py.div. destruct (Qeq_bool y 0) eqn:E; [discriminate|].
  intros [= <-]. split; [|reflexivity].
  intros Hz. apply Qeq_bool_iff in Hz. congruence.
Qed.

(** What the constructor has read and done when it returns. *)
Lemma init_inversion
    (getfloat : string -> option Q -> Bounds -> result Q)
    (h : Heater) (max_velocity max_accel : Q) (obj : PrinterExtruder) :
  value (init getfloat h max_velocity max_accel tt) = inr obj ->
  exists nozzle fd mcs mev mea med icv pa st,
    let fa := math_pi * (fd * (1 # 2)) ^ 2 in
    getfloat "nozzle_diameter" None (above_ 0) = inr nozzle
    /\ getfloat "filament_diameter" None (minval_ nozzle) = inr fd
    /\ ~ fa == 0
    /\ getfloat "max_extrude_cross_section" (Some (4 * nozzle ^ 2))
         (above_ 0) = inr mcs
    /\ getfloat "max_extrude_only_velocity"
         (Some (max_velocity * (4 * nozzle ^ 2 / fa))) (above_ 0) = inr mev
    /\ getfloat "max_extrude_only_accel"
         (Some (max_accel * (4 * nozzle ^ 2 / fa))) (above_ 0) = inr mea
    /\ getfloat "max_extrude_only_distance" (Some 50) (minval_ 0) = inr med
    /\ getfloat "instantaneous_corner_velocity" (Some 1) (minval_ 0)
       = inr icv
    /\ getfloat "pressure_advance" (Some 0) (minval_ 0) = inr pa
    /\ getfloat "pressure_advance_smooth_time" (Some (20 # 1000))
         (mkBounds None (Some (100 # 1000)) (Some 0)) = inr st
    /\ obj = mkPrinterExtruder h nozzle fa (mcs / fa) mev mea med icv
               pa st true 0 0
    /\ trace (init getfloat h max_velocity max_accel tt)
       = [LogMaxExtrudeRatio (mcs / fa);
          SetMaxJerk (99999999 # 10) (99999999 # 10);
          NoteFlushDelay (effective_smooth_time pa st) 0;
          ExtruderSetPressure pa (effective_smooth_time pa st)].
Proof.
  unfold init. rewrite bind_lift.
  destruct (getfloat "nozzle_diameter" None (above_ 0)) as [e|nozzle];
    [cbn [value]; intros Hv; discriminate Hv|]. intros Hv; exists nozzle; revert Hv.
  rewrite bind_lift.
  destruct (getfloat "filament_diameter" None (minval_ nozzle)) as [e|fd];
    [cbn [value]; intros Hv; discriminate Hv|]. intros Hv; exists fd; revert Hv.
  rewrite bind_lift.
  destruct (Py.div _ _) as [e|ratio] eqn:Ediv; [cbn [value]; intros Hv; discriminate Hv|].
  apply div_inr in Ediv. destruct Ediv as [Hfa ->].
  rewrite bind_lift.
  destruct (getfloat "max_extrude_cross_section" _ _) as [e|mcs];
    [cbn [value]; intros Hv; discriminate Hv|]. intros Hv; exists mcs; revert Hv.
  rewrite bind_lift, (div_nonzero _ _ Hfa), bind_call.
  cbn [value final trace]. rewrite bind_lift.
  destruct (getfloat "max_extrude_only_velocity" _ _) as [e|mev];
    [cbn [value]; intros Hv; discriminate Hv|]. intros Hv; exists mev; revert Hv.
  rewrite bind_lift.
  destruct (getfloat "max_extrude_only_accel" _ _) as [e|mea];
    [cbn [value]; intros Hv; discriminate Hv|]. intros Hv; exists mea; revert Hv.
  rewrite bind_call. cbn [value final trace]. rewrite bind_lift.
  destruct (getfloat "max_extrude_only_distance" _ _) as [e|med];
    [cbn [value]; intros Hv; discriminate Hv|]. intros Hv; exists med; revert Hv.
  rewrite bind_lift.
  destruct (getfloat "instantaneous_corner_velocity" _ _) as [e|icv];
    [cbn [value]; intros Hv; discriminate Hv|]. intros Hv; exists icv; revert Hv.
  rewrite bind_lift.
  destruct (getfloat "pressure_advance" _ _) as [e|pa];
    [cbn [value]; intros Hv; discriminate Hv|]. intros Hv; exists pa; revert Hv.
  rewrite bind_lift.
  destruct (getfloat "pressure_advance_smooth_time" _ _) as [e|st];
    [cbn [value]; intros Hv; discriminate Hv|]. intros Hv; exists st; revert Hv.
  unfold on_object. rewrite set_pressure_advance_outcome.
  cbn [value final trace]. intros [= <-]. cbv zeta.
  repeat split; try reflexivity. exact Hfa.
Qed.

Lemma math_pi_pos : 0 < math_pi.
Proof. reflexivity. Qed.

Lemma filament_area_pos (fd : Q) :
  ~ math_pi * (fd * (1 # 2)) ^ 2 == 0 -> 0 < math_pi * (fd * (1 # 2)) ^ 2.
Proof.
  intros Hnz. pose proof math_pi_pos as Hpi.
  assert (E : (fd * (1 # 2)) ^ 2 == (fd * (1 # 2)) * (fd * (1 # 2)))
    by (simpl; ring).
  rewrite E in *.
  assert (0 <= math_pi * ((fd * (1 # 2)) * (fd * (1 # 2)))) by nra.
  destruct (Qle_lt_or_eq _ _ H) as [Hlt|Heq]; [exact Hlt|].
  exfalso. apply Hnz. now symmetry.
Qed.

Lemma section_getfloat_within (section : gmap string Q)
    (name : string) (default : option Q) (b : Bounds) (v : Q) :
  section_getfloat section name default b = inr v -> within b v.
Proof.
  unfold section_getfloat, within.
  destruct (match section !! name with Some _ => _ | None => _ end)
    as [x|]; [|discriminate].
  destruct (minval b) as [lo|] eqn:E1;
    [destruct (Py.ltb x lo) eqn:T1; [discriminate|]|];
    (destruct (maxval b) as [hi|] eqn:E2;
     [destruct (Py.gtb x hi) eqn:T2; [discriminate|]|]);
    (destruct (above b) as [ab|] eqn:E3;
     [destruct (Py.leb x ab) eqn:T3; [discriminate|]|]);
    intros [= <-]; repeat split; intros ? [= <-];
    try (now apply ltb_false); try (now apply gtb_false).
  all: apply Qnot_le_lt; intros Hle; apply leb_true in Hle; congruence.
Qed.

(** X15: when [getfloat] returns values inside the bounds it is given,
    an extruder that the constructor returns has a positive nozzle
    diameter, a filament area that is positive and at least the one of a
    filament as wide as the nozzle, positive [max_extrude_ratio],
    [max_e_velocity] and [max_e_accel], [max_e_dist],
    [instant_corner_v] and [pressure_advance] that are not negative, a
    smoothing time in (0, 0.1], the motor enable pending and both
    positions at 0. *)
Theorem init_within_limits
    (getfloat : string -> option Q -> Bounds -> result Q)
    (h : Heater) (max_velocity max_accel : Q) (obj : PrinterExtruder) :
  (forall name default b v, getfloat name default b = inr v -> within b v) ->
  value (init getfloat h max_velocity max_accel tt) = inr obj ->
  0 < nozzle_diameter obj
  /\ math_pi * (nozzle_diameter obj * (1 # 2)) ^ 2 <= filament_area obj
  /\ 0 < filament_area obj
  /\ 0 < max_extrude_ratio obj
  /\ 0 < max_e_velocity obj
  /\ 0 < max_e_accel obj
  /\ 0 <= max_e_dist obj
  /\ 0 <= instant_corner_v obj
  /\ 0 <= pressure_advance obj
  /\ 0 < pressure_advance_smooth_time obj
  /\ pressure_advance_smooth_time obj <= 1 # 10
  /\ need_motor_enable obj = true
  /\ extrude_pos obj = 0 /\ extrude_pa_pos obj = 0.
Proof.
  intros Hb Hv.
  destruct (init_inversion getfloat h max_velocity max_accel obj Hv)
    as (nozzle & fd & mcs & mev & mea & med & icv & pa & st & Hi).
  cbv zeta in Hi.
  destruct Hi as (E1 & E2 & Hfa & E3 & E4 & E5 & E6 & E7 & E8 & E9 & -> & _).
  cbn [nozzle_diameter filament_area max_extrude_ratio max_e_velocity
       max_e_accel max_e_dist instant_corner_v pressure_advance
       pressure_advance_smooth_time need_motor_enable extrude_pos
       extrude_pa_pos].
  apply Hb in E1, E2, E3, E4, E5, E6, E7, E8, E9. unfold within in *.
  destruct E1 as (_ & _ & A1). specialize (A1 0 eq_refl).
  destruct E2 as (A2 & _ & _). specialize (A2 nozzle eq_refl).
  destruct E3 as (_ & _ & A3). specialize (A3 0 eq_refl).
  destruct E4 as (_ & _ & A4). specialize (A4 0 eq_refl).
  destruct E5 as (_ & _ & A5). specialize (A5 0 eq_refl).
  destruct E6 as (A6 & _ & _). specialize (A6 0 eq_refl).
  destruct E7 as (A7 & _ & _). specialize (A7 0 eq_refl).
  destruct E8 as (A8 & _ & _). specialize (A8 0 eq_refl).
  destruct E9 as (_ & A9 & B9).
  specialize (A9 (100 # 1000) eq_refl). specialize (B9 0 eq_refl).
  pose proof (filament_area_pos fd Hfa) as Hpos.
  pose proof math_pi_pos as Hpi.
  repeat split; try assumption; try reflexivity.
  - assert (E : forall x : Q, x ^ 2 == x * x) by (intros; simpl; ring).
    rewrite !E. apply Qmult_le_l; [exact Hpi|]. nra.
  - apply Qlt_shift_div_l; [exact Hpos|]. lra.
  - assert (E : 1 # 10 == 100 # 1000) by reflexivity. rewrite E. exact A9.
Qed.

(** The example section, read with its bounds checked. *)
Lemma init_within_limits_witness :
  0 < max_extrude_ratio (example_extruder hot_heater)
  /\ 0 < filament_area (example_extruder hot_heater).
Proof.
  pose proof (init_within_limits (section_getfloat example_section)
                hot_heater 300 3000 (example_extruder hot_heater)
                (section_getfloat_within example_section)
                ltac:(reflexivity)) as (_ & _ & Hfa & Hr & _).
  split; assumption.
Defined.

(** X17: when the constructor returns, the calls it has made to
    [note_flush_delay] and to [extruder_set_pressure] are one of each, in
    this order: the delay is negotiated from an old delay of 0 to the
    smoothing time in effect for the configured pressure advance, and
    this pair is published; the values stored are the configured
    [pressure_advance] and [pressure_advance_smooth_time]. *)
Theorem init_negotiates_from_zero
    (getfloat : string -> option Q -> Bounds -> result Q)
    (h : Heater) (max_velocity max_accel : Q) (obj : PrinterExtruder) :
  value (init getfloat h max_velocity max_accel tt) = inr obj ->
  List.filter
    (fun ev =>
       match ev with
       | NoteFlushDelay _ _ | ExtruderSetPressure _ _ => true
       | _ => false
       end)
    (trace (init getfloat h max_velocity max_accel tt))
  = [NoteFlushDelay
       (effective_smooth_time (pressure_advance obj)
          (pressure_advance_smooth_time obj)) 0;
     ExtruderSetPressure (pressure_advance obj)
       (effective_smooth_time (pressure_advance obj)
          (pressure_advance_smooth_time obj))]
  /\ getfloat "pressure_advance" (Some 0) (minval_ 0)
     = inr (pressure_advance obj)
  /\ getfloat "pressure_advance_smooth_time" (Some (20 # 1000))
       (mkBounds None (Some (100 # 1000)) (Some 0))
     = inr (pressure_advance_smooth_time obj).
Proof.
  intros Hv.
  destruct (init_inversion getfloat h max_velocity max_accel obj Hv)
    as (nozzle & fd & mcs & mev & mea & med & icv & pa & st & Hi).
  cbv zeta in Hi.
  destruct Hi as (_ & _ & _ & _ & _ & _ & _ & _ & E8 & E9 & -> & Htr).
  rewrite Htr. repeat split; assumption.
Qed.

(** Without a configured pressure advance the delay negotiated is 0. *)
Lemma init_negotiates_from_zero_witness :
  List.filter
    (fun ev =>
       match ev with
       | NoteFlushDelay _ _ | ExtruderSetPressure _ _ => true
       | _ => false
       end)
    (trace (example_init hot_heater))
  = [NoteFlushDelay 0 0; ExtruderSetPressure 0 0].
Proof.
  apply (init_negotiates_from_zero (section_getfloat example_section)
           hot_heater 300 3000 (example_extruder hot_heater)).
  reflexivity.
Defined.

(** X18: on a constructed extruder, [max_extrude_ratio * filament_area]
    is the value read for [max_extrude_cross_section] (its default is
    [4 * nozzle_diameter^2]), and this is the limit that a cross-section
    rejection reports. *)
Theorem init_cross_section_limit
    (getfloat : string -> option Q -> Bounds -> result Q)
    (h : Heater) (max_velocity max_accel : Q) (obj : PrinterExtruder)
    (mcs : Q) :
  value (init getfloat h max_velocity max_accel tt) = inr obj ->
  getfloat "max_extrude_cross_section"
    (Some (4 * nozzle_diameter obj ^ 2)) (above_ 0) = inr mcs ->
  max_extrude_ratio obj * filament_area obj == mcs
  /\ (forall m area lim,
        value (check_move m obj)
        = inl (EndstopError (ExceedsMaxExtrusion area lim)) ->
        lim == mcs).
Proof.
  intros Hv Hm.
  destruct (init_inversion getfloat h max_velocity max_accel obj Hv)
    as (nozzle & fd & mcs' & mev & mea & med & icv & pa & st & Hi).
  cbv zeta in Hi.
  destruct Hi as (_ & _ & Hfa & E3 & _ & _ & _ & _ & _ & _ & -> & _).
  cbn [nozzle_diameter] in Hm. rewrite E3 in Hm. injection Hm as ->.
  cbn [max_extrude_ratio filament_area].
  assert (E : mcs / (math_pi * (fd * (1 # 2)) ^ 2)
              * (math_pi * (fd * (1 # 2)) ^ 2) == mcs)
    by (rewrite Qmult_comm; apply Qmult_div_r; exact Hfa).
  split; [exact E|].
  intros m area lim. destruct (Qeq_dec (move_d m) 0) as [Hz|Hd].
  - rewrite (check_move_zero_move_d m _ Hz). discriminate.
  - by_cascade m
      (mkPrinterExtruder h nozzle (math_pi * (fd * (1 # 2)) ^ 2)
         (mcs / (math_pi * (fd * (1 # 2)) ^ 2)) mev mea med icv pa st
         true 0 0) Hd; try discriminate.
    intros [= _ <-]. exact E.
Qed.

(** With a 0.4 mm nozzle the default limit is 0.64 mm^2. *)
Lemma init_cross_section_limit_witness :
  max_extrude_ratio (example_extruder hot_heater)
  * filament_area (example_extruder hot_heater) == 64 # 100.
Proof.
  apply (init_cross_section_limit (section_getfloat example_section)
           hot_heater 300 3000 (example_extruder hot_heater) (64 # 100)).
  - reflexivity.
  - vm_compute. reflexivity.
Defined.

(** ** The registry of extruders *)

Lemma extruder_section_inj (i j : nat) :
  extruder_section i = extruder_section j -> i = j.
Proof.
  unfold extruder_section. intros E.
  apply (inj (String.app "extruder")) in E. now apply (inj pretty) in E.
Qed.

Lemma extruder_section_0 : extruder_section 0 = "extruder0".
Proof. reflexivity. Qed.

Lemma add_printer_objects_unfold {P Obj} `{Printer P Obj}
    (has_section : string -> bool) (construct : string -> nat -> result Obj)
    (p0 : P) :
  add_printer_objects has_section construct p0
  = add_printer_objects_from has_section construct 99 0 p0.
Proof. reflexivity. Qed.

Lemma get_printer_extruders_unfold {P Obj} `{Printer P Obj} (p0 : P) :
  get_printer_extruders p0 = get_printer_extruders_from 99 0 p0 [].
Proof. reflexivity. Qed.

Section RegistryFacts.

Context {P Obj : Type} `{PrinterLaws P Obj}.

Lemma get_printer_extruders_from_spec (n i : nat) (p : P) (out : list Obj) :
  exists r,
    get_printer_extruders_from n i p out = out ++ r
    /\ (length r <= n)%nat
    /\ (forall j o, r !! j = Some o ->
        lookup_object (extruder_section (i + j)) p = Some o)
    /\ ((length r < n)%nat ->
        lookup_object (extruder_section (i + length r)) p = None).
Proof.
  revert i out. induction n as [|n IH]; intros i out.
  - exists []. cbn. rewrite app_nil_r.
    repeat split; [lia | discriminate | lia].
  - cbn [get_printer_extruders_from].
    destruct (lookup_object (extruder_section i) p) as [e|] eqn:E.
    + destruct (IH (S i) (out ++ [e])) as (r & Hr & Hlen & Hin & Hend).
      exists (e :: r). rewrite Hr, <- app_assoc. cbn [app length].
      repeat split.
      * lia.
      * intros [|j] o Ho; cbn in Ho.
        -- injection Ho as <-. now rewrite Nat.add_0_r.
        -- rewrite Nat.add_succ_r. now apply Hin.
      * intros Hlt. rewrite Nat.add_succ_r. apply Hend. lia.
    + exists []. rewrite app_nil_r. cbn [length].
      repeat split; [lia | discriminate |].
      intros _. now rewrite Nat.add_0_r.
Qed.

(** X19: [get_printer_extruders] returns at most 99 objects: the objects
    registered as [extruder0], [extruder1], ... in this order, up to the
    first name that is not registered.  Without [extruder0] it returns the
    empty list, whatever else is registered. *)
Theorem get_printer_extruders_prefix (p : P) :
  let r := get_printer_extruders p in
  (length r <= 99)%nat
  /\ (forall i o, r !! i = Some o ->
      lookup_object (extruder_section i) p = Some o)
  /\ ((length r < 99)%nat ->
      lookup_object (extruder_section (length r)) p = None)
  /\ (lookup_object "extruder0" p = None -> r = []).
Proof.
  cbv zeta. rewrite get_printer_extruders_unfold.
  destruct (get_printer_extruders_from_spec 99 0 p [])
    as (r & -> & Hlen & Hin & Hend).
  rewrite app_nil_l. split; [exact Hlen|]. split; [exact Hin|].
  split; [exact Hend|].
  intros Hnone. destruct r as [|o r]; [reflexivity|].
  specialize (Hin 0%nat o eq_refl).
  rewrite Nat.add_0_l, extruder_section_0 in Hin. congruence.
Qed.

Variable has_section : string -> bool.
Variable construct : string -> nat -> result Obj.

(** The scan stops at the first index without a section. *)
Lemma configured_bound (n i : nat) :
  (configured has_section n i <= n)%nat
  /\ ((configured has_section n i < n)%nat ->
      has_section (extruder_section (i + configured has_section n i)) = false
      /\ ((i + configured has_section n i = 0)%nat ->
          has_section "extruder" = false))
  /\ (forall j, (j < configured has_section n i)%nat -> (i + j <> 0)%nat ->
      has_section (extruder_section (i + j)) = true).
Proof.
  revert i. induction n as [|n IH]; intros i.
  - cbn. repeat split; lia.
  - cbn [configured].
    destruct (has_section (extruder_section i)) eqn:Es; cbn [orb].
    + destruct (IH (S i)) as (Hle & Hend & Hmid).
      split; [lia|]. split.
      * intros Hlt. rewrite Nat.add_succ_r.
        destruct Hend as [He Ha]; [lia|]. split; [exact He | lia].
      * intros [|j] Hj Hnz.
        -- now rewrite Nat.add_0_r.
        -- rewrite Nat.add_succ_r. apply Hmid; lia.
    + destruct (Nat.eqb i 0 && has_section "extruder") eqn:Ea.
      * apply andb_true_iff in Ea. destruct Ea as [Ei Ea].
        apply Nat.eqb_eq in Ei. subst i.
        destruct (IH 1%nat) as (Hle & Hend & Hmid).
        split; [lia|]. split.
        -- intros Hlt. cbn [Nat.add].
           destruct Hend as [He _]; [lia|]. split; [exact He | lia].
        -- intros [|j] Hj Hnz; [lia|].
           cbn [Nat.add].
           specialize (Hmid j ltac:(lia) ltac:(lia)). exact Hmid.
      * split; [lia|]. split.
        -- intros _. rewrite Nat.add_0_r. split; [exact Es|].
           intros Hi. assert (i = 0%nat) as -> by lia.
           cbn in Ea. exact Ea.
        -- intros j Hj. lia.
Qed.

(** What the loop has registered when it returns. *)
Lemma add_printer_objects_from_spec (n i : nat) (p0 p : P) :
  add_printer_objects_from has_section construct n i p0 = inr p ->
  (forall j, (j < configured has_section n i)%nat ->
     exists o,
       construct (source_section has_section (i + j)) (i + j)%nat = inr o
       /\ lookup_object (extruder_section (i + j)) p = Some o)
  /\ (forall name,
        (forall j, (j < configured has_section n i)%nat ->
           name <> extruder_section (i + j)) ->
        lookup_object name p = lookup_object name p0).
Proof.
  revert i p0. induction n as [|n IH]; intros i p0.
  - cbn. intros [= <-]. split; [intros j Hj; lia | reflexivity].
  - cbn [add_printer_objects_from configured]. unfold source_section.
    assert (Hstep : forall o p1,
              construct (if has_section (extruder_section i)
                         then extruder_section i else "extruder") i = inr o ->
              add_object (extruder_section i) o p0 = inr p1 ->
              add_printer_objects_from has_section construct n (S i) p1
              = inr p ->
              (forall j, (j < S (configured has_section n (S i)))%nat ->
                 exists o',
                   construct
                     (if has_section (extruder_section (i + j))
                      then extruder_section (i + j) else "extruder")
                     (i + j)%nat = inr o'
                   /\ lookup_object (extruder_section (i + j)) p = Some o')
              /\ (forall name,
                    (forall j, (j < S (configured has_section n (S i)))%nat ->
                       name <> extruder_section (i + j)) ->
                    lookup_object name p = lookup_object name p0)).
    { intros o p1 Hc Ha Hrec.
      destruct (IH (S i) p1 Hrec) as [Hobjs Hframe]. split.
      - intros [|j] Hj.
        + rewrite Nat.add_0_r. exists o. split; [exact Hc|].
          rewrite Hframe.
          * exact (lookup_add_eq _ _ _ _ Ha).
          * intros j _ E. apply extruder_section_inj in E. lia.
        + rewrite Nat.add_succ_r. apply (Hobjs j). lia.
      - intros name Hname. rewrite Hframe.
        + apply (lookup_add_ne _ _ _ _ _ Ha).
          specialize (Hname 0%nat ltac:(lia)).
          now rewrite Nat.add_0_r in Hname.
        + intros j Hj. specialize (Hname (S j) ltac:(lia)).
          now rewrite Nat.add_succ_r in Hname. }
    destruct (has_section (extruder_section i)) eqn:Es; cbn [negb orb].
    + destruct (construct (extruder_section i) i) as [e|o] eqn:Ec;
        [discriminate|].
      destruct (add_object (extruder_section i) o p0) as [e|p1] eqn:Ea;
        [discriminate|].
      intros Hrec. exact (Hstep o p1 eq_refl Ea Hrec).
    + destruct (Nat.eqb i 0 && has_section "extruder") eqn:Eal.
      * apply andb_true_iff in Eal. destruct Eal as [Ei _].
        apply Nat.eqb_eq in Ei. subst i.
        destruct (construct "extruder" 0) as [e|o] eqn:Ec; [discriminate|].
        destruct (add_object "extruder0" o p0) as [e|p1] eqn:Ea;
          [discriminate|].
        intros Hrec. exact (Hstep o p1 eq_refl Ea Hrec).
      * intros [= <-]. split; [intros j Hj; lia | reflexivity].
Qed.

(** X20: when [add_printer_objects] returns, it has registered one
    extruder for each index below the first one without a section, and
    nothing else: the object of index [i] is under the name
    [extruder<i>] and was built with the number [i] from the section of
    that name, or for index 0 from the section [extruder] when there is
    no section [extruder0]; every section between is present; a section
    after a gap is not visited; every other name of the printer is as
    before. *)
Theorem add_printer_objects_scan (p0 p : P) :
  add_printer_objects has_section construct p0 = inr p ->
  let k := configured has_section 99 0 in
  (k <= 99)%nat
  /\ (forall i, (i < k)%nat ->
      exists o,
        construct (source_section has_section i) i = inr o
        /\ lookup_object (extruder_section i) p = Some o)
  /\ (forall i, (0 < i < k)%nat ->
      has_section (extruder_section i) = true)
  /\ ((k < 99)%nat -> has_section (extruder_section k) = false)
  /\ (k = 0%nat -> has_section "extruder" = false)
  /\ (forall name,
        (forall i, (i < k)%nat -> name <> extruder_section i) ->
        lookup_object name p = lookup_object name p0).
Proof.
  intros Hadd k. subst k. rewrite add_printer_objects_unfold in Hadd.
  destruct (add_printer_objects_from_spec 99 0 p0 p Hadd) as [Hobjs Hframe].
  destruct (configured_bound 99 0) as (Hle & Hend & Hmid).
  split; [exact Hle|]. split; [exact Hobjs|]. split; [|split; [|split]].
  - intros i Hi. apply (Hmid i); lia.
  - intros Hlt. exact (proj1 (Hend Hlt)).
  - intros Hk. apply Hend; lia.
  - exact Hframe.
Qed.

(** X21: on a printer that held no extruder, [get_printer_extruders]
    after [add_printer_objects] returns the extruders of the
    configuration, in the order of their indices: as many as the scan
    found configured, the one at position [i] being the object built for
    index [i]. *)
Theorem get_after_add (p0 p : P) :
  add_printer_objects has_section construct p0 = inr p ->
  (forall i, lookup_object (extruder_section i) p0 = None) ->
  length (get_printer_extruders p) = configured has_section 99 0
  /\ (forall i o, get_printer_extruders p !! i = Some o ->
      construct (source_section has_section i) i = inr o).
Proof.
  intros Hadd Hfresh. rewrite add_printer_objects_unfold in Hadd.
  destruct (add_printer_objects_from_spec 99 0 p0 p Hadd) as [Hobjs Hframe].
  destruct (configured_bound 99 0) as (Hle & _).
  rewrite get_printer_extruders_unfold.
  destruct (get_printer_extruders_from_spec 99 0 p [])
    as (r & -> & Hlen & Hin & Hend).
  rewrite app_nil_l.
  assert (Hk : length r = configured has_section 99 0).
  { destruct (Nat.lt_trichotomy (length r) (configured has_section 99 0))
      as [Hlt|[Heq|Hgt]]; [|exact Heq|].
    - destruct (Hobjs _ Hlt) as (o & _ & Ho).
      rewrite (Hend ltac:(lia)) in Ho. discriminate.
    - destruct (lookup_lt_is_Some_2 r (configured has_section 99 0) Hgt)
        as [o Ho].
      apply Hin in Ho. rewrite Hframe, Hfresh in Ho; [discriminate|].
      intros j Hj E. apply extruder_section_inj in E.
      rewrite !Nat.add_0_l in E. lia. }
  split; [exact Hk|].
  intros i o Ho.
  assert (Hi : (i < configured has_section 99 0)%nat).
  { rewrite <- Hk. apply lookup_lt_is_Some. eauto. }
  destruct (Hobjs i Hi) as (o' & Hc & Ho').
  apply Hin in Ho. rewrite Nat.add_0_l in Ho, Ho', Hc. congruence.
Qed.

(** Where an error of the loop comes from. *)
Lemma add_printer_objects_from_errors (n i : nat) (p0 : P) (e : exn) :
  add_printer_objects_from has_section construct n i p0 = inl e ->
  (exists j, (j < configured has_section n i)%nat
             /\ construct (source_section has_section (i + j)) (i + j)%nat
                = inl e)
  \/ (exists name obj p', add_object name obj p' = inl e).
Proof.
  revert i p0. induction n as [|n IH]; intros i p0.
  - discriminate.
  - cbn [add_printer_objects_from configured]. unfold source_section.
    assert (Hrec : forall p1,
              add_printer_objects_from has_section construct n (S i) p1
              = inl e ->
              (exists j, (j < S (configured has_section n (S i)))%nat
                         /\ construct
                              (if has_section (extruder_section (i + j))
                               then extruder_section (i + j)
                               else "extruder") (i + j)%nat = inl e)
              \/ (exists name obj p', add_object name obj p' = inl e)).
    { intros p1 H1. destruct (IH (S i) p1 H1) as [(j & Hj & Hc)|Ha].
      - left. exists (S j). split; [lia|]. now rewrite Nat.add_succ_r.
      - right. exact Ha. }
    destruct (has_section (extruder_section i)) eqn:Es; cbn [negb orb].
    + destruct (construct (extruder_section i) i) as [e'|o] eqn:Ec.
      * intros [= <-]. left. exists 0%nat. split; [lia|].
        now rewrite Nat.add_0_r, Es.
      * destruct (add_object (extruder_section i) o p0) as [e'|p1] eqn:Ea.
        -- intros [= <-]. right. eauto.
        -- apply Hrec.
    + destruct (Nat.eqb i 0 && has_section "extruder") eqn:Eal;
        [|discriminate].
      apply andb_true_iff in Eal. destruct Eal as [Ei _].
      apply Nat.eqb_eq in Ei. subst i.
      destruct (construct "extruder" 0) as [e'|o] eqn:Ec.
      * intros [= <-]. left. exists 0%nat. split; [lia|].
        now rewrite Nat.add_0_r, Es.
      * destruct (add_object "extruder0" o p0) as [e'|p1] eqn:Ea.
        -- intros [= <-]. right. eauto.
        -- apply Hrec.
Qed.

(** X22: [add_printer_objects] raises only what the constructor of one of
    the configured extruders raises, or what [printer.add_object]
    raises. *)
Theorem add_printer_objects_errors (p0 : P) (e : exn) :
  add_printer_objects has_section construct p0 = inl e ->
  (exists i, (i < configured has_section 99 0)%nat
             /\ construct (source_section has_section i) i = inl e)
  \/ (exists name obj p', add_object name obj p' = inl e).
Proof.
  rewrite add_printer_objects_unfold. intros Hadd.
  exact (add_printer_objects_from_errors 99 0 p0 e Hadd).
Qed.

Lemma add_printer_objects_from_none (n i : nat) (p0 : P) :
  has_section (extruder_section i) = false ->
  Nat.eqb i 0 && has_section "extruder" = false ->
  add_printer_objects_from has_section construct (S n) i p0 = inr p0.
Proof.
  intros Hs Ha. cbn [add_printer_objects_from]. rewrite Hs. cbn [negb].
  now rewrite Ha.
Qed.

(** X23: without a section [extruder0] and without a section [extruder],
    [add_printer_objects] returns the printer as it was, whatever other
    extruder sections the configuration holds. *)
Theorem add_printer_objects_none (p0 : P) :
  has_section "extruder0" = false -> has_section "extruder" = false ->
  add_printer_objects has_section construct p0 = inr p0
  /\ configured has_section 99 0 = 0%nat.
Proof.
  intros Hs He. rewrite add_printer_objects_unfold. split.
  - apply (add_printer_objects_from_none 98 0 p0).
    + now rewrite extruder_section_0.
    + now rewrite He.
  - change 99%nat with (S 98). cbn [configured].
    rewrite extruder_section_0, Hs, He. reflexivity.
Qed.

End RegistryFacts.

(** The finite map keeps what a table of objects has to. *)
Lemma gmap_printer_laws {Obj : Type} : PrinterLaws (gmap string Obj) Obj.
Proof.
  split.
  - intros name obj p p'. cbn. destruct (p !! name); [discriminate|].
    intros [= <-]. apply lookup_insert_eq.
  - intros name name' obj p p'. cbn. destruct (p !! name); [discriminate|].
    intros [= <-] Hne. now apply lookup_insert_ne.
Qed.

#[export] Existing Instance gmap_printer_laws.

(** A configuration with the sections [extruder] and [extruder2], and a
    constructor that returns the name of the section and the index. *)
Lemma add_printer_objects_scan_witness :
  lookup_object "extruder2"
    (<["extruder0" := ("extruder", 0%nat)]> (∅ : gmap string (string * nat)))
  = None.
Proof.
  assert (Hadd : add_printer_objects
                   (fun s => String.eqb s "extruder"
                             || String.eqb s "extruder2")
                   (fun name i => inr (name, i))
                   (∅ : gmap string (string * nat))
                 = inr (<["extruder0" := ("extruder", 0%nat)]> ∅))
    by (vm_compute; reflexivity).
  pose proof (add_printer_objects_scan _ _ _ _ Hadd)
    as (_ & _ & _ & _ & _ & Hframe).
  rewrite Hframe; [reflexivity|].
  intros i Hi. vm_compute in Hi.
  assert (i = 0%nat) as -> by lia. discriminate.
Defined.

(** The same configuration: one extruder comes back. *)
Lemma get_after_add_witness :
  length (get_printer_extruders
            (<["extruder0" := ("extruder", 0%nat)]>
               (∅ : gmap string (string * nat))))
  = 1%nat.
Proof.
  assert (Hadd : add_printer_objects
                   (fun s => String.eqb s "extruder"
                             || String.eqb s "extruder2")
                   (fun name i => inr (name, i))
                   (∅ : gmap string (string * nat))
                 = inr (<["extruder0" := ("extruder", 0%nat)]> ∅))
    by (vm_compute; reflexivity).
  rewrite (proj1 (get_after_add _ _ _ _ Hadd
                    ltac:(intros i; apply lookup_empty))).
  vm_compute. reflexivity.
Defined.

(** A printer with [extruder1] alone. *)
Lemma get_printer_extruders_prefix_witness :
  get_printer_extruders
    (<["extruder1" := 1%nat]> (∅ : gmap string nat)) = [].
Proof.
  apply (get_printer_extruders_prefix
           (<["extruder1" := 1%nat]> (∅ : gmap string nat))).
  reflexivity.
Defined.

(** A constructor that refuses every section. *)
Lemma add_printer_objects_errors_witness :
  (exists i,
     (i < configured (fun s => String.eqb s "extruder") 99 0)%nat
     /\ (fun name (_ : nat) => inl (ConfigError name) : result nat)
          (source_section (fun s => String.eqb s "extruder") i) i
        = inl (ConfigError "extruder"))
  \/ (exists name obj p',
        add_object (P := gmap string nat) name obj p'
        = inl (ConfigError "extruder")).
Proof.
  assert (Hadd : add_printer_objects
                   (fun s => String.eqb s "extruder")
                   (fun name (_ : nat) => inl (ConfigError name))
                   (∅ : gmap string nat)
                 = inl (ConfigError "extruder"))
    by (vm_compute; reflexivity).
  exact (add_printer_objects_errors _ _ _ _ Hadd).
Defined.

(** A configuration without sections. *)
Lemma add_printer_objects_none_witness :
  add_printer_objects (fun _ => false) (fun _ i => inr i)
    (∅ : gmap string nat) = inr ∅.
Proof.
  apply (add_printer_objects_none (fun _ => false) (fun _ i => inr i)
           (∅ : gmap string nat)); reflexivity.
Defined.
